(** * Gitleaks repository scanner (scan_repos.py)

    A shallow embedding of [scan_repos.py]: the orchestration of the
    [git] and [gitleaks] child processes, the reading of the JSON report
    and the running counters, followed by the properties of the
    orchestration contract.

    The program talks to the outside world (child processes, the file
    system, the terminal).  Everything the outside world answers is
    collected in a record [Env]; everything the program does to it
    (lines printed, commands run, files written, removals attempted) is
    logged in the program state.  Python exceptions are explicit: a
    computation either returns a value or raises, and the state survives
    a raise, as it does in Python. *)

From Stdlib Require Import String Ascii List Arith ZArith Bool Lia.
Import ListNotations.
Open Scope string_scope.
Open Scope nat_scope.

Set Warnings "-register-all".

(** ** Python values read from the report *)

(** What [json.load] can return.  A float is carried by its literal, the
    program never computes with it.  A dict is the list of its items;
    [py_get] finds the first item with a key and [py_len] counts distinct
    keys, so every list of items denotes one dict. *)
Inductive PyValue : Type :=
| PNone
| PBool (b : bool)
| PInt (z : Z)
| PFloat (literal : string)
| PStr (s : string)
| PList (l : list PyValue)
| PDict (items : list (string * PyValue)).

Definition type_name (v : PyValue) : string :=
  match v with
  | PNone => "NoneType"
  | PBool _ => "bool"
  | PInt _ => "int"
  | PFloat _ => "float"
  | PStr _ => "str"
  | PList _ => "list"
  | PDict _ => "dict"
  end.

(** ** Exceptions *)

(** The exception classes the program distinguishes.  [OtherException]
    stands for any further subclass of [Exception] (OSError, EOFError,
    ...).  [UnicodeDecodeError] is, like [JSONDecodeError], a subclass
    of ValueError, and neither is a subclass of the other.
    [KeyboardInterrupt] is the one class here that is not a subclass of
    [Exception]. *)
Inductive exc_class : Type :=
| TimeoutExpired
| JSONDecodeError
| UnicodeDecodeError
| TypeError
| AttributeError
| OtherException
| KeyboardInterrupt.

(** An exception instance: its class and [str(e)]. *)
Record exn : Type := mk_exn { exn_class : exc_class; exn_str : string }.

(** [isinstance(e, Exception)] *)
Definition is_Exception (e : exn) : bool :=
  match exn_class e with
  | KeyboardInterrupt => false
  | _ => true
  end.

Inductive outcome (A : Type) : Type :=
| Return (a : A)
| Raise (e : exn).
Arguments Return {A} a.
Arguments Raise {A} e.

(** ** Operations on Python values *)

(** [len(v)] *)
Definition py_len (v : PyValue) : outcome nat :=
  match v with
  | PList l => Return (List.length l)
  | PStr s => Return (String.length s)
  | PDict items => Return (List.length (nodup string_dec (map fst items)))
  | _ => Raise (mk_exn TypeError
                  ("object of type '" ++ type_name v ++ "' has no len()"))
  end.

(** [v[:5]].  Slicing a dict raises (TypeError before Python 3.12, whose
    wording is kept here; KeyError from 3.12 on). *)
Definition py_slice5 (v : PyValue) : outcome PyValue :=
  match v with
  | PList l => Return (PList (firstn 5 l))
  | PStr s => Return (PStr (substring 0 5 s))
  | PDict _ => Raise (mk_exn TypeError "unhashable type: 'slice'")
  | _ => Raise (mk_exn TypeError
                  ("'" ++ type_name v ++ "' object is not subscriptable"))
  end.

(** The elements a [for] loop over [v] visits. *)
Definition py_iter (v : PyValue) : outcome (list PyValue) :=
  match v with
  | PList l => Return l
  | PStr s => Return (map (fun c => PStr (String c "")) (list_ascii_of_string s))
  | PDict items => Return (map PStr (nodup string_dec (map fst items)))
  | _ => Raise (mk_exn TypeError
                  ("'" ++ type_name v ++ "' object is not iterable"))
  end.

Fixpoint lookup (key : string) (items : list (string * PyValue)) : option PyValue :=
  match items with
  | [] => None
  | (k, v) :: rest => if String.eqb k key then Some v else lookup key rest
  end.

(** [v.get(key, default)]: only a dict has the method. *)
Definition py_get (v : PyValue) (key : string) (default : PyValue) : outcome PyValue :=
  match v with
  | PDict items =>
      Return (match lookup key items with Some x => x | None => default end)
  | _ => Raise (mk_exn AttributeError
                  ("'" ++ type_name v ++ "' object has no attribute 'get'"))
  end.

(** ** Paths *)

(** The part of [s] after its last ['/'], all of [s] when it has none:
    [s.split('/')[-1]] and [os.path.basename(s)] alike. *)
Fixpoint last_segment (acc s : string) : string :=
  match s with
  | EmptyString => acc
  | String c rest =>
      if Ascii.eqb c "/" then last_segment "" rest
      else last_segment (acc ++ String c "") rest
  end.

Definition basename (p : string) : string := last_segment "" p.

Fixpoint ends_with_slash (s : string) : bool :=
  match s with
  | EmptyString => false
  | String c EmptyString => Ascii.eqb c "/"
  | String _ rest => ends_with_slash rest
  end.

Definition starts_with_slash (s : string) : bool :=
  match s with
  | String c _ => Ascii.eqb c "/"
  | EmptyString => false
  end.

(** [os.path.join(a, b)] (POSIX) *)
Definition path_join (a b : string) : string :=
  if starts_with_slash b then b
  else if (String.eqb a "" || ends_with_slash a)%bool then a ++ b
  else a ++ "/" ++ b.

(** ** Data model *)

(** The dict built by [scan_repository]. *)
Record ScanResult : Type := mk_result {
  repo_name : string;
  repo_url : string;
  repo_path : string;
  report_file : string;
  findings : PyValue;
  findings_count : nat;
  success : bool;
  error : option string
}.

(** [subprocess.CompletedProcess] *)
Record CompletedProcess : Type := mk_completed {
  returncode : Z;
  stdout : string;
  stderr : string
}.

(** What the orchestrator finds at the report path after the scanner ran:
    nothing, or a file of [size] bytes on which [open] followed by
    [json.load] has the outcome [load]. *)
Inductive report_state : Type :=
| Absent
| Present (size : nat) (load : outcome PyValue).

(** One entry per printed line; colour codes and pictographs are left out,
    interpolated values are kept as they are. *)
Inductive console_line : Type :=
| Blank
| Text (s : string)
| ScanningCount (n : nat)
| MissingTools (missing : list string)
| TempDirLine (d : string)
| CloneFailed (name err : string)
| CloneTimeout (name : string)
| CloneError (name msg : string)
| Scanning (name : string)
| SecretsFound (name : string) (n : nat)
| ReportAt (file : string)
| FindingsSummary
| FindingLine (rule_id description file_path line : PyValue)
| MoreFindings (n : nat)
| Clean (name : string)
| ScanError (error_msg : string)
| FinalReportSaved (file : string)
| TempKept (d : string)
| CleaningUp
| CleanupComplete
| SummaryTotal (n : nat)
| SummaryScanned (n : nat)
| SummaryWithSecrets (n : nat)
| SummaryFindings (n : nat)
| WarningSecrets (n : nat)
| Interrupted
| UnexpectedError (msg : string).

(** One entry per [f.write] call of [generate_final_report]. *)
Inductive report_line : Type :=
| RTitle
| RTitleRule
| RScanDate (timestamp : string)
| RTotalRepositories (n : nat)
| RSuccessfullyScanned (n : nat)
| RWithSecrets (n : nat)
| RTotalFindings (n : nat)
| RSecretsHeader
| RSecretsRule
| RRepository (name : string)
| RUrl (url : string)
| RFindings (n : nat)
| RReport (file : string)
| RSeparator
| RAllClean
| RNoSecrets.

(** The answers of the outside world.  The run asks about every command
    line and every report path of a repository once, so these answers
    are functions of the question alone.  The workspace may be asked
    about more than once (in [main] and again in one of its handlers):
    there the answer also depends on how many removals were attempted
    before. *)
Record Env : Type := mk_env {
  (* shutil.which(tool) is not None *)
  which : string -> bool;
  (* tempfile.mkdtemp(prefix=...) *)
  mkdtemp : string -> outcome string;
  (* subprocess.run(argv, capture_output=True, text=True, timeout=...) *)
  subprocess_run : list string -> nat -> outcome CompletedProcess;
  (* os.path.exists, os.path.getsize, open and json.load on a report path *)
  report_on_disk : string -> report_state;
  (* open(path, 'w') and the writes to it *)
  write_file : string -> outcome unit;
  (* datetime.now().strftime(...) *)
  now : string;
  (* input(prompt) *)
  input : string -> outcome string;
  (* os.path.exists(directory), after n attempted removals *)
  path_exists : string -> nat -> bool;
  (* shutil.rmtree(directory), after n attempted removals *)
  rmtree : string -> nat -> outcome unit
}.

(** The program state: the four attributes of the [GitleaksScanner]
    object, then the trace the program leaves outside. *)
Record State : Type := mk_state {
  temp_dir : option string;
  results : list ScanResult;
  total_findings : nat;
  repos_with_secrets : nat;
  console : list console_line;
  calls : list (list string * nat);
  written : list (string * list report_line);
  (* the calls of shutil.rmtree so far, each with whether it returned *)
  removed : list (string * bool)
}.

(** [GitleaksScanner.__init__], with an empty trace. *)
Definition init : State :=
  mk_state None [] 0 0 [] [] [] [].

(** ** The monad of the program *)

Definition M (A : Type) : Type := State -> outcome A * State.

Definition ret {A} (a : A) : M A := fun s => (Return a, s).

Definition bind {A B} (c : M A) (k : A -> M B) : M B :=
  fun s =>
    match c s with
    | (Return a, s') => k a s'
    | (Raise e, s') => (Raise e, s')
    end.

Definition raise {A} (e : exn) : M A := fun s => (Raise e, s).

(** A value or an exception coming from a pure operation or from [Env]. *)
Definition lift {A} (o : outcome A) : M A := fun s => (o, s).

(** [try: body except ...: handler]; a handler re-raises what no clause
    of the source catches. *)
Definition try_except {A} (body : M A) (handler : exn -> M A) : M A :=
  fun s =>
    match body s with
    | (Return a, s') => (Return a, s')
    | (Raise e, s') => handler e s'
    end.

Declare Scope py_scope.
Delimit Scope py_scope with py.
Notation "x <- c ;; k" := (bind c (fun x => k))
  (at level 61, c at next level, right associativity) : py_scope.
Notation "c ;; k" := (bind c (fun _ => k))
  (at level 61, right associativity) : py_scope.
Open Scope py_scope.

Definition print (l : console_line) : M unit :=
  fun s =>
    (Return tt,
     mk_state (temp_dir s) (results s) (total_findings s) (repos_with_secrets s)
              (console s ++ [l]) (calls s) (written s) (removed s)).

Fixpoint print_all (ls : list console_line) : M unit :=
  match ls with
  | [] => ret tt
  | l :: rest => print l ;; print_all rest
  end.

(** ** The scanner *)

(** Repository URLs to scan *)
Definition REPOSITORIES : list string :=
  [ "https://github.com/AlwaysUbaid/AlgoHL";
    "https://github.com/AlwaysUbaid/hummingbot-ubaid";
    "https://github.com/AlwaysUbaid/MarketMakingMegaMachine";
    "https://github.com/AlwaysUbaid/market-making-gabrielee5";
    "https://github.com/AlwaysUbaid/avail-dune-analytics";
    "https://github.com/AlwaysUbaid/HyperCore-Wallet-Tracker" ].

(** [os.path.join(self.temp_dir, name)]: a TypeError while [temp_dir] is
    still [None]. *)
Definition join_temp_dir (name : string) : M string :=
  fun s =>
    match temp_dir s with
    | Some d => (Return (path_join d name), s)
    | None =>
        (Raise (mk_exn TypeError
                  "expected str, bytes or os.PathLike object, not NoneType"), s)
    end.

Definition set_temp_dir (d : string) : M unit :=
  fun s =>
    (Return tt,
     mk_state (Some d) (results s) (total_findings s) (repos_with_secrets s)
              (console s) (calls s) (written s) (removed s)).

(** [self.repos_with_secrets += 1; self.total_findings += findings_count] *)
Definition count_secrets (n : nat) : M unit :=
  fun s =>
    (Return tt,
     mk_state (temp_dir s) (results s) (total_findings s + n)
              (repos_with_secrets s + 1)
              (console s) (calls s) (written s) (removed s)).

(** [self.results.append(result)] *)
Definition append_result (r : ScanResult) : M unit :=
  fun s =>
    (Return tt,
     mk_state (temp_dir s) (results s ++ [r]) (total_findings s)
              (repos_with_secrets s)
              (console s) (calls s) (written s) (removed s)).

Definition log_call (argv : list string) (timeout : nat) : M unit :=
  fun s =>
    (Return tt,
     mk_state (temp_dir s) (results s) (total_findings s) (repos_with_secrets s)
              (console s) (calls s ++ [(argv, timeout)]) (written s) (removed s)).

Definition log_written (path : string) (content : list report_line) : M unit :=
  fun s =>
    (Return tt,
     mk_state (temp_dir s) (results s) (total_findings s) (repos_with_secrets s)
              (console s) (calls s) (written s ++ [(path, content)]) (removed s)).

Definition log_removed (d : string) (returned : bool) : State -> State :=
  fun s =>
    mk_state (temp_dir s) (results s) (total_findings s) (repos_with_secrets s)
             (console s) (calls s) (written s) (removed s ++ [(d, returned)]).

Definition get {A} (f : State -> A) : M A := fun s => (Return (f s), s).

(** The failure dict of [scan_repository] (both [except] clauses). *)
Definition failed_result (name url path file error_msg : string) : ScanResult :=
  mk_result name url path file (PList []) 0 false (Some error_msg).

(** The body of the summary loop, [for finding in findings[:5]]. *)
Fixpoint print_findings (items : list PyValue) : M unit :=
  match items with
  | [] => ret tt
  | finding :: rest =>
      rule_id <- lift (py_get finding "ruleID" (PStr "Unknown")) ;;
      description <- lift (py_get finding "description" (PStr "No description")) ;;
      file_path <- lift (py_get finding "file" (PStr "Unknown file")) ;;
      line <- lift (py_get finding "startLine" (PStr "Unknown line")) ;;
      print (FindingLine rule_id description file_path line) ;;
      print_findings rest
  end.

Section Scanner.

Variable env : Env.

(** [subprocess.run(argv, capture_output=True, text=True, timeout=t)] *)
Definition run (argv : list string) (timeout : nat) : M CompletedProcess :=
  log_call argv timeout ;;
  lift (subprocess_run env argv timeout).

Definition check_dependencies : M bool :=
  let required_tools := ["gitleaks"; "git"] in
  let missing_tools := filter (fun tool => negb (which env tool)) required_tools in
  match missing_tools with
  | [] => ret true
  | _ =>
      print (MissingTools missing_tools) ;;
      print (Text "Please install missing tools:") ;;
      print_all
        (flat_map
           (fun tool =>
              if String.eqb tool "gitleaks" then
                [ Text "  macOS: brew install gitleaks";
                  Text "  Or download from: https://github.com/gitleaks/gitleaks/releases" ]
              else if String.eqb tool "git" then
                [ Text "  Install Git from: https://git-scm.com/downloads" ]
              else [])
           missing_tools) ;;
      ret false
  end.

Definition setup_temp_directory : M unit :=
  d <- lift (mkdtemp env "gitleaks_scan_") ;;
  set_temp_dir d ;;
  print (TempDirLine d).

Definition clone_repository (url : string) : M (bool * string) :=
  let name := basename url in
  path <- join_temp_dir name ;;
  try_except
    ( result <- run ["git"; "clone"; "--depth"; "1"; url; path] 300 ;;
      if (returncode result =? 0)%Z then ret (true, path)
      else
        print (CloneFailed name (stderr result)) ;;
        ret (false, "") )
    (fun e =>
       match exn_class e with
       | TimeoutExpired =>
           print (CloneTimeout name) ;;
           ret (false, "")
       | KeyboardInterrupt => raise e
       | _ =>
           print (CloneError name (exn_str e)) ;;
           ret (false, "")
       end).

(** Lines 113-122: the findings and their count as read from the report. *)
Definition read_report (file : string) : M (PyValue * nat) :=
  match report_on_disk env file with
  | Present size load =>
      if 0 <? size then
        match load with
        | Return loaded =>
            n <- lift (py_len loaded) ;;
            ret (loaded, n)
        | Raise e =>
            match exn_class e with
            | JSONDecodeError => ret (PList [], 0)
            | _ => raise e
            end
        end
      else ret (PList [], 0)
  | Absent => ret (PList [], 0)
  end.

Definition scan_repository (path url : string) : M ScanResult :=
  let name := basename path in
  file <- join_temp_dir (name ++ "_report.json") ;;
  print (Scanning name) ;;
  try_except
    ( _ <- run ["gitleaks"; "git";
                "--report-path"; file;
                "--report-format"; "json";
                "--no-banner";
                path] 600 ;;
      fc <- read_report file ;;
      let (found, count) := (fc : PyValue * nat) in
      let result_data := mk_result name url path file found count true None in
      (if 0 <? count then
         print (SecretsFound name count) ;;
         print (ReportAt file) ;;
         print FindingsSummary ;;
         first5 <- lift (py_slice5 found) ;;
         items <- lift (py_iter first5) ;;
         print_findings items ;;
         (if 5 <? count then print (MoreFindings (count - 5)) else ret tt) ;;
         count_secrets count
       else
         print (Clean name)) ;;
      ret result_data )
    (fun e =>
       match exn_class e with
       | TimeoutExpired =>
           let error_msg := "Timeout scanning " ++ name in
           print (ScanError error_msg) ;;
           ret (failed_result name url path file error_msg)
       | KeyboardInterrupt => raise e
       | _ =>
           let error_msg := "Error scanning " ++ name ++ ": " ++ exn_str e in
           print (ScanError error_msg) ;;
           ret (failed_result name url path file error_msg)
       end).

End Scanner.

Section Orchestrator.

Variable env : Env.

(** The per-repository blocks of the final report (lines 202-208). *)
Definition secret_blocks (rs : list ScanResult) : list report_line :=
  flat_map
    (fun result =>
       if 0 <? findings_count result then
         [ RRepository (repo_name result);
           RUrl (repo_url result);
           RFindings (findings_count result);
           RReport (report_file result);
           RSeparator ]
       else [])
    rs.

Definition final_report_content (s : State) : list report_line :=
  [ RTitle;
    RTitleRule;
    RScanDate (now env);
    RTotalRepositories (List.length REPOSITORIES);
    RSuccessfullyScanned (List.length (filter success (results s)));
    RWithSecrets (repos_with_secrets s);
    RTotalFindings (total_findings s) ]
  ++ (if 0 <? repos_with_secrets s then
        [ RSecretsHeader; RSecretsRule ] ++ secret_blocks (results s)
      else
        [ RAllClean; RNoSecrets ]).

Definition generate_final_report : M string :=
  file <- join_temp_dir "final_report.txt" ;;
  lift (write_file env file) ;;
  content <- get final_report_content ;;
  log_written file content ;;
  print Blank ;;
  print (FinalReportSaved file) ;;
  ret file.

Definition print_summary : M unit :=
  s <- get (fun s => s) ;;
  print (Text "SCAN SUMMARY") ;;
  print (Text "===============") ;;
  print (SummaryTotal (List.length REPOSITORIES)) ;;
  print (SummaryScanned (List.length (filter success (results s)))) ;;
  print (SummaryWithSecrets (repos_with_secrets s)) ;;
  print (SummaryFindings (total_findings s)) ;;
  print Blank ;;
  if repos_with_secrets s =? 0 then
    print (Text "CONGRATULATIONS! All your repositories are clean!") ;;
    print (Text "No secrets were found in any of the scanned repositories.")
  else
    print (WarningSecrets (repos_with_secrets s)) ;;
    print (Text "Please review the detailed reports and take immediate action.") ;;
    print Blank ;;
    print_all
      [ Text "Recommended Actions:";
        Text "1. Review each finding in the detailed reports";
        Text "2. Determine if the secrets are real or false positives";
        Text "3. If real secrets are found:";
        Text "   - Rotate/revoke the compromised credentials immediately";
        Text "   - Remove the secrets from git history (git filter-branch or BFG)";
        Text "   - Update your secrets management practices";
        Text "4. Consider setting up gitleaks as a pre-commit hook" ].

(** [shutil.rmtree(dir)]: it returns or raises as the world answers, and
    the call is logged with its outcome. *)
Definition remove_tree (dir : string) : M unit :=
  fun s =>
    match rmtree env dir (List.length (removed s)) with
    | Return _ => (Return tt, log_removed dir true s)
    | Raise e => (Raise e, log_removed dir false s)
    end.

(** No [try] protects the call of [shutil.rmtree]: what it raises leaves
    [cleanup].  The number of removals attempted so far tells the world
    which answer is asked for. *)
Definition cleanup (keep_files : bool) : M unit :=
  d <- get temp_dir ;;
  attempts <- get (fun s => List.length (removed s)) ;;
  match d with
  | Some dir =>
      if (negb (String.eqb dir "") && path_exists env dir attempts)%bool then
        if keep_files then print (TempKept dir)
        else
          print CleaningUp ;;
          remove_tree dir ;;
          print CleanupComplete
      else ret tt
  | None => ret tt
  end.

(** The loop of [run_scan], lines 249-258, over the URLs still to do. *)
Fixpoint scan_all (urls : list string) : M unit :=
  match urls with
  | [] => ret tt
  | url :: rest =>
      cloned <- clone_repository env url ;;
      let (ok, path) := (cloned : bool * string) in
      if negb ok then scan_all rest
      else
        result <- scan_repository env path url ;;
        append_result result ;;
        print Blank ;;
        scan_all rest
  end.

Definition run_scan : M bool :=
  print (Text "Gitleaks Repository Scanner") ;;
  print (Text "================================") ;;
  print (ScanningCount (List.length REPOSITORIES)) ;;
  print Blank ;;
  deps <- check_dependencies env ;;
  if negb deps then ret false
  else
    setup_temp_directory env ;;
    print (Text "Starting repository scans...") ;;
    print Blank ;;
    scan_all REPOSITORIES ;;
    generate_final_report ;;
    print_summary ;;
    ret true.

(** The prompt of [main], line 304. *)
Definition keep_files_prompt : string :=
  "Do you want to keep the temporary files for review? (y/n): ".

(** [input(...).lower().startswith('y')] *)
Definition answers_yes (answer : string) : bool :=
  match answer with
  | String c _ => (Ascii.eqb c "y" || Ascii.eqb c "Y")%bool
  | EmptyString => false
  end.

(** The body of the [try] of [main]. *)
Definition main_body : M nat :=
  ok <- run_scan ;;
  (if (ok : bool) then
     print Blank ;;
     answer <- lift (input env keep_files_prompt) ;;
     cleanup (answers_yes answer)
   else ret tt) ;;
  ret (if ok then 0 else 1).

Definition main : M nat :=
  try_except main_body
    (fun e =>
       match exn_class e with
       | KeyboardInterrupt =>
           print Blank ;;
           print Interrupted ;;
           cleanup false ;;
           ret 1
       | _ =>
           print (UnexpectedError (exn_str e)) ;;
           cleanup false ;;
           ret 1
       end).


End Orchestrator.

(** * Vocabulary of the properties *)

(** A step that touches neither the attributes of the scanner object nor
    the files: at most the console and the list of commands grow. *)
Definition same_tally (s s' : State) : Prop :=
  temp_dir s' = temp_dir s /\
  results s' = results s /\
  total_findings s' = total_findings s /\
  repos_with_secrets s' = repos_with_secrets s /\
  written s' = written s /\
  removed s' = removed s.

Definition with_console (s : State) (extra : list console_line) : State :=
  mk_state (temp_dir s) (results s) (total_findings s) (repos_with_secrets s)
           (console s ++ extra) (calls s) (written s) (removed s).

(** The command line of the clone, lines 75-80. *)
Definition clone_argv (url dest : string) : list string :=
  ["git"; "clone"; "--depth"; "1"; url; dest].

(** The command line of the scan, lines 104-110. *)
Definition scan_argv (file target : string) : list string :=
  ["gitleaks"; "git"; "--report-path"; file; "--report-format"; "json";
   "--no-banner"; target].

(** The scanner command line in the words of the interface description:
    [scan <target> --report-path <file> --report-format json]. *)
Definition described_scan_argv (file target : string) : list string :=
  ["gitleaks"; "scan"; target; "--report-path"; file; "--report-format"; "json"].

(** Where a clone of [url] goes, line 71. *)
Definition clone_path (d url : string) : string :=
  path_join d (basename url).

(** The report path, line 98. *)
Definition report_path (d path : string) : string :=
  path_join d (basename path ++ "_report.json").

(** The three ways a clone fails (lines 84-93): a timeout, a non-zero
    exit code, any other [Exception]. *)
Definition clone_fails (env : Env) (d url : string) : Prop :=
  let answer := subprocess_run env (clone_argv url (clone_path d url)) 300 in
  (exists e, answer = Raise e /\ exn_class e = TimeoutExpired) \/
  (exists cp, answer = Return cp /\ returncode cp <> 0%Z) \/
  (exists e, answer = Raise e /\ is_Exception e = true).

(** The clone of [url] came back with exit code 0. *)
Definition cloned (env : Env) (d url : string) : bool :=
  match subprocess_run env (clone_argv url (clone_path d url)) 300 with
  | Return cp => (returncode cp =? 0)%Z
  | Raise _ => false
  end.

(** The scanner process came back, with whatever exit code. *)
Definition scan_completes (env : Env) (d path : string) : Prop :=
  exists cp,
    subprocess_run env (scan_argv (report_path d path) path) 600 = Return cp.

(** The scanner process timed out or its invocation raised another
    [Exception] (lines 158 and 171). *)
Definition scan_fails (env : Env) (d path : string) : Prop :=
  let answer := subprocess_run env (scan_argv (report_path d path) path) 600 in
  (exists e, answer = Raise e /\ exn_class e = TimeoutExpired) \/
  (exists e, answer = Raise e /\ is_Exception e = true).


(** The dict returned for a scan that found nothing. *)
Definition clean_result (d path url : string) : ScanResult :=
  mk_result (basename path) url path (report_path d path) (PList []) 0 true None.

(** JSON values on which [len] is not defined. *)
Definition has_no_len (v : PyValue) : bool :=
  match v with
  | PNone | PBool _ | PInt _ | PFloat _ => true
  | _ => false
  end.

(** [sum(r['findings_count'] for r in results)] *)
Definition sum_counts (rs : list ScanResult) : nat :=
  fold_right (fun r acc => findings_count r + acc) 0 rs.

(** [len([r for r in results if r['findings_count'] > 0])] *)
Definition count_with_secrets (rs : list ScanResult) : nat :=
  List.length (filter (fun r => 0 <? findings_count r) rs).

(** The counters agree with the recorded results. *)
Definition tally_consistent (s : State) : Prop :=
  total_findings s = sum_counts (results s) /\
  repos_with_secrets s = count_with_secrets (results s).

(** [d.get(key, default)] on the items of a dict. *)
Definition field (items : list (string * PyValue)) (key : string)
    (default : PyValue) : PyValue :=
  match lookup key items with Some x => x | None => default end.

(** The summary line of one Finding object, lines 142-146. *)
Definition summary_line (items : list (string * PyValue)) : console_line :=
  FindingLine (field items "ruleID" (PStr "Unknown"))
              (field items "description" (PStr "No description"))
              (field items "file" (PStr "Unknown file"))
              (field items "startLine" (PStr "Unknown line")).

(** The check of [check_dependencies] fails: a required tool is not on
    the search path. *)
Definition tool_missing (env : Env) : Prop :=
  which env "gitleaks" = false \/ which env "git" = false.

(** A run never returns [False] once both tools are found, and returns
    [False] at once when one is missing. *)
Definition run_scan_outcome (env : Env) (o : outcome bool) : Prop :=
  if (which env "gitleaks" && which env "git")%bool
  then o <> Return false
  else o = Return false.




(** A computation that removes no directory, however it ends. *)
Definition removes_nothing {A} (c : M A) : Prop :=
  forall s, removed (snd (c s)) = removed s.

(** [isinstance(v, dict)] *)
Definition is_dict (v : PyValue) : bool :=
  match v with
  | PDict _ => true
  | _ => false
  end.

(** The commands the loop of [run_scan] runs for [urls], in order: one
    clone per URL, followed by one scan when the clone exited with 0. *)
Definition command_trace (env : Env) (d : string) (urls : list string)
  : list (list string * nat) :=
  flat_map
    (fun url =>
       (clone_argv url (clone_path d url), 300)
       :: (if cloned env d url
           then [(scan_argv (report_path d (clone_path d url)) (clone_path d url), 600)]
           else []))
    urls.

(** A result whose name, clone path and report path all derive from its
    URL inside the workspace [d]. *)
Definition named_after_url (d : string) (r : ScanResult) : Prop :=
  repo_name r = basename (repo_url r) /\
  repo_path r = path_join d (basename (repo_url r)) /\
  report_file r = path_join d (basename (repo_url r) ++ "_report.json").

(** The final report as a function of the results alone. *)
Definition report_of_results (timestamp : string) (rs : list ScanResult)
  : list report_line :=
  [ RTitle;
    RTitleRule;
    RScanDate timestamp;
    RTotalRepositories (List.length REPOSITORIES);
    RSuccessfullyScanned (List.length (filter success rs));
    RWithSecrets (count_with_secrets rs);
    RTotalFindings (sum_counts rs) ]
  ++ (if existsb (fun r => 0 <? findings_count r) rs then
        [ RSecretsHeader; RSecretsRule ] ++ secret_blocks rs
      else
        [ RAllClean; RNoSecrets ]).

(** No ['/'] in [s]. *)
Fixpoint slash_free (s : string) : bool :=
  match s with
  | EmptyString => true
  | String c rest => (negb (Ascii.eqb c "/") && slash_free rest)%bool
  end.

(** The directory [cleanup(keep_files)] passes to [shutil.rmtree] in
    state [s], if any. *)
Definition to_remove (env : Env) (keep_files : bool) (s : State) : option string :=
  match temp_dir s with
  | Some dir =>
      if (negb (String.eqb dir "")
          && path_exists env dir (List.length (removed s))
          && negb keep_files)%bool
      then Some dir else None
  | None => None
  end.







(** The user interrupts the clone of [url], or the scan that follows a
    successful clone. *)
Definition interrupt_during (env : Env) (d url : string) : Prop :=
  (exists e,
     subprocess_run env (clone_argv url (clone_path d url)) 300 = Raise e /\
     exn_class e = KeyboardInterrupt) \/
  (cloned env d url = true /\
   exists e,
     subprocess_run env
       (scan_argv (report_path d (clone_path d url)) (clone_path d url)) 600
     = Raise e /\
     exn_class e = KeyboardInterrupt).

(** The console summary as a function of the results alone. *)
Definition summary_of_results (rs : list ScanResult) : list console_line :=
  [ Text "SCAN SUMMARY";
    Text "===============";
    SummaryTotal (List.length REPOSITORIES);
    SummaryScanned (List.length (filter success rs));
    SummaryWithSecrets (count_with_secrets rs);
    SummaryFindings (sum_counts rs);
    Blank ]
  ++ (if existsb (fun r => 0 <? findings_count r) rs then
        [ WarningSecrets (count_with_secrets rs);
          Text "Please review the detailed reports and take immediate action.";
          Blank;
          Text "Recommended Actions:";
          Text "1. Review each finding in the detailed reports";
          Text "2. Determine if the secrets are real or false positives";
          Text "3. If real secrets are found:";
          Text "   - Rotate/revoke the compromised credentials immediately";
          Text "   - Remove the secrets from git history (git filter-branch or BFG)";
          Text "   - Update your secrets management practices";
          Text "4. Consider setting up gitleaks as a pre-commit hook" ]
      else
        [ Text "CONGRATULATIONS! All your repositories are clean!";
          Text "No secrets were found in any of the scanned repositories." ]).

(** * Scenarios *)

(** A world in which every tool is installed, every child process exits
    with code 0, no report is written, the user declines to keep the
    files and the workspace is there and can be removed. *)
Definition quiet : Env :=
  mk_env (fun _ => true)
         (fun _ => Return "/tmp/gitleaks_scan_x")
         (fun _ _ => Return (mk_completed 0 "" ""))
         (fun _ => Absent)
         (fun _ => Return tt)
         "2024-01-01 00:00:00"
         (fun _ => Return "n")
         (fun _ _ => true)
         (fun _ _ => Return tt).

(** [quiet] with other answers to the child processes. *)
Definition with_run (run : list string -> nat -> outcome CompletedProcess)
    (env : Env) : Env :=
  mk_env (which env) (mkdtemp env) run (report_on_disk env) (write_file env)
         (now env) (input env) (path_exists env) (rmtree env).

(** [env] with other reports on disk. *)
Definition with_report (report : string -> report_state) (env : Env) : Env :=
  mk_env (which env) (mkdtemp env) (subprocess_run env) report (write_file env)
         (now env) (input env) (path_exists env) (rmtree env).

(** [env] with other tools installed. *)
Definition with_which (w : string -> bool) (env : Env) : Env :=
  mk_env w (mkdtemp env) (subprocess_run env) (report_on_disk env)
         (write_file env) (now env) (input env) (path_exists env) (rmtree env).

(** [env] with another answer at the prompt. *)
Definition with_input (i : string -> outcome string) (env : Env) : Env :=
  mk_env (which env) (mkdtemp env) (subprocess_run env) (report_on_disk env)
         (write_file env) (now env) i (path_exists env) (rmtree env).

(** [env] with other answers to the removal of a directory. *)
Definition with_rmtree (r : string -> nat -> outcome unit) (env : Env) : Env :=
  mk_env (which env) (mkdtemp env) (subprocess_run env) (report_on_disk env)
         (write_file env) (now env) (input env) (path_exists env) r.

(** A world in which the workspace cannot be removed. *)
Definition removal_fails : Env :=
  with_rmtree
    (fun _ _ => Raise (mk_exn OtherException
                         "[Errno 13] Permission denied: '/tmp/gitleaks_scan_x'"))
    quiet.

(** A world in which the first removal of the workspace fails and the
    second goes through. *)
Definition removal_fails_once : Env :=
  with_rmtree
    (fun _ n =>
       match n with
       | 0 => Raise (mk_exn OtherException
                       "[Errno 16] Device or resource busy: '/tmp/gitleaks_scan_x'")
       | _ => Return tt
       end)
    quiet.


(** The child process whose first argument is [tool] answers [o], the
    others exit with code 0. *)
Definition tool_answers (tool : string) (o : outcome CompletedProcess)
    (argv : list string) (timeout : nat) : outcome CompletedProcess :=
  match argv with
  | t :: _ => if String.eqb t tool then o else Return (mk_completed 0 "" "")
  | [] => Return (mk_completed 0 "" "")
  end.

Definition a_finding (rule : string) : PyValue :=
  PDict [("ruleID", PStr rule); ("description", PStr "a secret");
         ("file", PStr "config.py"); ("startLine", PInt 3)].

(** Three repositories: the clone of [B] exits with code 128, the scan
    of [C] reports two findings, [A] is clean. *)
Definition three_repositories : Env :=
  with_report
    (fun file =>
       if String.eqb file "/tmp/w/C_report.json"
       then Present 300 (Return (PList [a_finding "aws-access-token";
                                        a_finding "generic-api-key"]))
       else Absent)
    (with_run
       (fun argv _ =>
          match argv with
          | ["git"; "clone"; "--depth"; "1"; url; _] =>
              if String.eqb url "https://example.org/team/B"
              then Return (mk_completed 128 "" "fatal: repository not found")
              else Return (mk_completed 0 "" "")
          | _ => Return (mk_completed 0 "" "")
          end)
       quiet).

(** A scanner state after [setup_temp_directory]. *)
Definition ready : State :=
  mk_state (Some "/tmp/w") [] 0 0 [] [] [] [].

(** * Properties *)

Ltac run_monad :=
  cbv beta iota zeta delta
    [bind ret raise lift try_except print get join_temp_dir run log_call
     count_secrets append_result set_temp_dir log_written log_removed remove_tree
     temp_dir results total_findings repos_with_secrets console calls
     written removed fst snd].

(** The same without unfolding the projections of the state. *)
Tactic Notation "run_steps" :=
  cbv beta iota zeta delta
    [bind ret raise lift try_except print get join_temp_dir run log_call
     count_secrets append_result set_temp_dir log_written log_removed remove_tree].
Tactic Notation "run_steps" "in" hyp(H) :=
  cbv beta iota zeta delta
    [bind ret raise lift try_except print get join_temp_dir run log_call
     count_secrets append_result set_temp_dir log_written log_removed remove_tree] in H.

Lemma with_console_nil s : with_console s [] = s.
Proof. destruct s. unfold with_console. cbn. rewrite app_nil_r. reflexivity. Qed.

(** ** Clone failures *)

Lemma clone_repository_fails env d url s :
  temp_dir s = Some d ->
  clone_fails env d url ->
  exists s',
    clone_repository env url s = (Return (false, ""), s') /\ same_tally s s'.
Proof.
  intros Hd Hfail. unfold clone_fails, clone_argv, clone_path in Hfail.
  unfold clone_repository. run_monad.
  destruct s as [td rs tf rws co ca wr rm]. cbn in Hd. subst td.
  run_monad.
  destruct Hfail as [(e & He & Hc) | [(cp & Hcp & Hrc) | (e & He & Hc)]].
  - rewrite He, Hc. eexists. split; [reflexivity|]. repeat split.
  - rewrite Hcp. apply Z.eqb_neq in Hrc. rewrite Hrc.
    eexists. split; [reflexivity|]. repeat split.
  - rewrite He. unfold is_Exception in Hc.
    destruct (exn_class e); try discriminate;
      (eexists; split; [reflexivity|]; repeat split).
Qed.

(** C1. A clone that times out, exits with a non-zero code or raises any
    other [Exception] makes [clone_repository] return [(False, "")]; the
    loop of [run_scan] then records no result for the URL, leaves
    [total_findings] and [repos_with_secrets] as they were, and goes on
    with the remaining URLs. *)
Theorem clone_failure_skips_repository env d url rest s :
  temp_dir s = Some d ->
  clone_fails env d url ->
  exists s',
    clone_repository env url s = (Return (false, ""), s') /\
    results s' = results s /\
    total_findings s' = total_findings s /\
    repos_with_secrets s' = repos_with_secrets s /\
    scan_all env (url :: rest) s = scan_all env rest s'.
Proof.
  intros Hd Hfail.
  destruct (clone_repository_fails env d url s Hd Hfail) as (s' & Hrun & Hsame).
  destruct Hsame as (_ & Hres & Htot & Hrws & _).
  exists s'. repeat (split; [assumption|]).
  cbn [scan_all]. unfold bind at 1. rewrite Hrun. reflexivity.
Qed.

Lemma clone_failure_skips_repository_witness :
  let env := with_run (tool_answers "git" (Raise (mk_exn TimeoutExpired "timed out"))) quiet in
  let url := "https://github.com/AlwaysUbaid/AlgoHL" in
  temp_dir ready = Some "/tmp/w" /\
  clone_fails env "/tmp/w" url /\
  exists s',
    clone_repository env url ready = (Return (false, ""), s') /\
    results s' = results ready /\
    total_findings s' = total_findings ready /\
    repos_with_secrets s' = repos_with_secrets ready /\
    scan_all env [url; "https://github.com/AlwaysUbaid/avail-dune-analytics"] ready
    = scan_all env ["https://github.com/AlwaysUbaid/avail-dune-analytics"] s'.
Proof.
  intros env url.
  assert (Hfail : clone_fails env "/tmp/w" url).
  { left. eexists. split; reflexivity. }
  split; [reflexivity|]. split; [exact Hfail|].
  exact (clone_failure_skips_repository env "/tmp/w" url
           ["https://github.com/AlwaysUbaid/avail-dune-analytics"] ready
           eq_refl Hfail).
Defined.

(** ** The scan of one repository *)

(** The summary loop only prints, whether it ends or raises. *)
Lemma print_findings_frame items :
  forall s, exists o extra,
    print_findings items s = (o, with_console s extra).
Proof.
  induction items as [|finding rest IH]; intros s.
  - exists (Return tt), []. cbn. now rewrite with_console_nil.
  - cbn [print_findings]. destruct finding;
      try (eexists; exists []; cbn; now rewrite with_console_nil).
    unfold py_get. run_monad.
    match goal with
    | |- context [print_findings rest ?s1] =>
        destruct (IH s1) as (o & extra & Hx); rewrite Hx
    end.
    exists o. eexists (_ :: extra).
    destruct o; unfold with_console; cbn; rewrite <- app_assoc; reflexivity.
Qed.

Ltac finish_tally :=
  do 2 eexists; split; [reflexivity|]; cbn;
  repeat split; try reflexivity; try lia.

Ltac through_summary :=
  match goal with
  | |- context [print_findings ?items ?s1] =>
      let o := fresh "o" in
      let extra := fresh "extra" in
      let Hx := fresh "Hx" in
      let e := fresh "e" in
      destruct (print_findings_frame items s1) as (o & extra & Hx);
      rewrite Hx; unfold with_console; destruct o as [[]|e];
      [|destruct (exn_class e) eqn:?]; run_monad
  end.

Ltac split_on_count n :=
  destruct (5 <? S n); cbn [Nat.ltb Nat.leb py_slice5 py_iter exn_class]; run_monad.

(** What one call of [scan_repository] does to the tally, in every case:
    a returned result carries the length of its findings and has been
    counted; an interrupt leaves the counters alone. *)
Lemma scan_repository_tally env path url s d :
  temp_dir s = Some d ->
  exists o s', scan_repository env path url s = (o, s') /\
    temp_dir s' = temp_dir s /\ results s' = results s /\
    written s' = written s /\
    calls s' = (calls s ++ [(scan_argv (report_path d path) path, 600)])%list /\
    match o with
    | Return r => py_len (findings r) = Return (findings_count r) /\
                  total_findings s' = total_findings s + findings_count r /\
                  repos_with_secrets s' =
                    repos_with_secrets s + (if 0 <? findings_count r then 1 else 0)
    | Raise e => exn_class e = KeyboardInterrupt /\
                 total_findings s' = total_findings s /\
                 repos_with_secrets s' = repos_with_secrets s
    end.
Proof.
  intros Hd. destruct s as [td rs tf rws co ca wr rm]. cbn in Hd. subst td.
  unfold scan_repository, read_report. run_monad.
  destruct (subprocess_run env _ 600) as [cp|e].
  - destruct (report_on_disk env _) as [|size load]; [finish_tally|].
    destruct (0 <? size); [|finish_tally].
    destruct load as [v|e].
    + destruct v; cbn [py_len type_name exn_class]; try finish_tally.
      * destruct (String.length s) as [|n] eqn:Hn;
          [finish_tally; now rewrite Hn|].
        split_on_count n; through_summary; finish_tally;
          try assumption; congruence.
      * destruct (List.length l) as [|n] eqn:Hn;
          [finish_tally; now rewrite Hn|].
        split_on_count n; through_summary; finish_tally;
          try assumption; congruence.
      * destruct (List.length _) as [|n] eqn:Hn;
          [finish_tally; now rewrite Hn|].
        split_on_count n; finish_tally.
    + destruct (exn_class e) eqn:Hc; run_monad; rewrite ?Hc; run_monad;
        finish_tally; assumption.
  - destruct (exn_class e) eqn:Hc; finish_tally; assumption.
Qed.




(** Every clone, failed or not, leaves the tally alone. *)
Lemma clone_repository_frame env url s :
  exists o s', clone_repository env url s = (o, s') /\ same_tally s s'.
Proof.
  destruct s as [td rs tf rws co ca wr rm].
  unfold clone_repository. run_monad.
  destruct td as [d|]; [|do 2 eexists; split; [reflexivity|]; repeat split].
  destruct (subprocess_run env _ 300) as [cp|e].
  - destruct (returncode cp =? 0)%Z;
      (do 2 eexists; split; [reflexivity|]; repeat split).
  - destruct (exn_class e);
      (do 2 eexists; split; [reflexivity|]; repeat split).
Qed.

Lemma scan_repository_fails env d path url s :
  temp_dir s = Some d ->
  scan_fails env d path ->
  exists msg s',
    scan_repository env path url s
    = (Return (failed_result (basename path) url path (report_path d path) msg), s') /\
    msg <> "" /\ same_tally s s'.
Proof.
  intros Hd Hfail.
  destruct s as [td rs tf rws co ca wr rm]. cbn in Hd. subst td.
  unfold scan_fails, scan_argv, report_path in *.
  unfold scan_repository. run_monad.
  assert (Hne : forall a b : string, a <> "" -> (a ++ b)%string <> "").
  { intros [|c a] b Ha; [congruence | discriminate]. }
  destruct Hfail as [(e & He & Hc) | (e & He & Hc)]; rewrite He.
  - rewrite Hc. do 2 eexists. split; [reflexivity|].
    split; [apply Hne; discriminate | repeat split].
  - unfold is_Exception in Hc.
    destruct (exn_class e); try discriminate;
      (do 2 eexists; split; [reflexivity|];
       split; [apply Hne; discriminate | repeat split]).
Qed.

(** C3. A scan whose invocation times out or raises another [Exception]
    yields a result with [success] false, a non-empty error message, a
    count of 0 and no findings; the loop of [run_scan] appends this
    result to [results], leaves the counters as they were and goes on
    with the remaining URLs. *)
Theorem scan_failure_is_recorded env d url path rest s s1 :
  temp_dir s = Some d ->
  clone_repository env url s = (Return (true, path), s1) ->
  scan_fails env d path ->
  exists r s2 s3,
    scan_repository env path url s1 = (Return r, s2) /\
    success r = false /\
    (exists msg, error r = Some msg /\ msg <> "") /\
    findings_count r = 0 /\
    findings r = PList [] /\
    scan_all env (url :: rest) s = scan_all env rest s3 /\
    results s3 = (results s ++ [r])%list /\
    total_findings s3 = total_findings s /\
    repos_with_secrets s3 = repos_with_secrets s.
Proof.
  intros Hd Hclone Hfail.
  destruct (clone_repository_frame env url s) as (o & s1' & Hc & Hsame).
  rewrite Hclone in Hc. injection Hc as <- <-.
  destruct Hsame as (Htd & Hres & Htot & Hrws & _).
  assert (Hd1 : temp_dir s1 = Some d) by congruence.
  destruct (scan_repository_fails env d path url s1 Hd1 Hfail)
    as (msg & s2 & Hscan & Hmsg & (Htd2 & Hres2 & Htot2 & Hrws2 & _)).
  eexists. exists s2. eexists.
  split; [exact Hscan|].
  split; [reflexivity|].
  split; [exists msg; split; [reflexivity | exact Hmsg]|].
  split; [reflexivity|]. split; [reflexivity|].
  split.
  - cbn [scan_all]. unfold bind at 1. rewrite Hclone. cbn [negb].
    unfold bind at 1. rewrite Hscan. unfold bind at 1.
    unfold append_result at 1. unfold bind at 1. unfold print at 1.
    reflexivity.
  - cbn. rewrite Hres2, Hres, Htot2, Htot, Hrws2, Hrws. repeat split.
Qed.

Lemma scan_failure_is_recorded_witness :
  let env := with_run (tool_answers "gitleaks" (Raise (mk_exn TimeoutExpired "timed out"))) quiet in
  let url := "https://github.com/AlwaysUbaid/AlgoHL" in
  let s1 := snd (clone_repository env url ready) in
  temp_dir ready = Some "/tmp/w" /\
  clone_repository env url ready = (Return (true, "/tmp/w/AlgoHL"), s1) /\
  scan_fails env "/tmp/w" "/tmp/w/AlgoHL" /\
  exists r s2 s3,
    scan_repository env "/tmp/w/AlgoHL" url s1 = (Return r, s2) /\
    success r = false /\
    (exists msg, error r = Some msg /\ msg <> "") /\
    findings_count r = 0 /\
    findings r = PList [] /\
    scan_all env [url] ready = scan_all env [] s3 /\
    results s3 = (results ready ++ [r])%list /\
    total_findings s3 = total_findings ready /\
    repos_with_secrets s3 = repos_with_secrets ready.
Proof.
  intros env url s1.
  assert (Hfail : scan_fails env "/tmp/w" "/tmp/w/AlgoHL").
  { left. eexists. split; reflexivity. }
  split; [reflexivity|]. split; [reflexivity|]. split; [exact Hfail|].
  exact (scan_failure_is_recorded env "/tmp/w" url "/tmp/w/AlgoHL" [] ready s1
           eq_refl eq_refl Hfail).
Defined.

(** C4. Every result [scan_repository] produces, on the success path and
    on both failure paths and whatever the report holds, has
    [findings_count] equal to [len(findings)]; and a result is produced
    unless the user interrupts. *)
Theorem findings_count_is_length env path url s d :
  temp_dir s = Some d ->
  match fst (scan_repository env path url s) with
  | Return r => py_len (findings r) = Return (findings_count r)
  | Raise e => exn_class e = KeyboardInterrupt
  end.
Proof.
  intros Hd.
  destruct (scan_repository_tally env path url s d Hd)
    as (o & s' & Hrun & _ & _ & _ & _ & Ho).
  rewrite Hrun. cbn [fst]. destruct o; tauto.
Qed.

Lemma findings_count_is_length_witness :
  let env :=
    with_report (fun _ => Present 120 (Return (PList [a_finding "aws-access-token";
                                                      a_finding "generic-api-key"])))
                quiet in
  temp_dir ready = Some "/tmp/w" /\
  match fst (scan_repository env "/tmp/w/AlgoHL"
               "https://github.com/AlwaysUbaid/AlgoHL" ready) with
  | Return r => py_len (findings r) = Return (findings_count r)
  | Raise e => exn_class e = KeyboardInterrupt
  end.
Proof.
  intros env. split; [reflexivity|].
  exact (findings_count_is_length env "/tmp/w/AlgoHL"
           "https://github.com/AlwaysUbaid/AlgoHL" ready "/tmp/w" eq_refl).
Defined.

(** ** The counters *)

Lemma sum_counts_app rs r :
  sum_counts (rs ++ [r]) = sum_counts rs + findings_count r.
Proof.
  induction rs as [|x rs IH]; cbn.
  - lia.
  - unfold sum_counts in IH. rewrite IH. lia.
Qed.

Lemma count_with_secrets_app rs r :
  count_with_secrets (rs ++ [r])
  = count_with_secrets rs + (if 0 <? findings_count r then 1 else 0).
Proof.
  unfold count_with_secrets. rewrite filter_app, length_app. cbn [filter].
  destruct (0 <? findings_count r); reflexivity.
Qed.

(** The loop keeps the counters in step with the results, however each
    clone and each scan ends. *)
Lemma scan_all_tally env d urls :
  forall s,
    temp_dir s = Some d ->
    tally_consistent s ->
    exists o s',
      scan_all env urls s = (o, s') /\
      temp_dir s' = Some d /\ tally_consistent s' /\ written s' = written s.
Proof.
  induction urls as [|url rest IH]; intros s Hd Hinv.
  - exists (Return tt), s. repeat split; try assumption; apply Hinv.
  - cbn [scan_all]. unfold bind at 1.
    destruct (clone_repository_frame env url s)
      as (o & s1 & Hclone & (Htd & Hres & Htot & Hrws & Hwr & _)).
    rewrite Hclone.
    assert (Hd1 : temp_dir s1 = Some d) by congruence.
    assert (Hinv1 : tally_consistent s1).
    { unfold tally_consistent in *. rewrite Hres, Htot, Hrws. exact Hinv. }
    destruct o as [[ok path]|e].
    + destruct ok; cbn [negb].
      * unfold bind at 1.
        destruct (scan_repository_tally env path url s1 d Hd1)
          as (o2 & s2 & Hscan & Htd2 & Hres2 & Hwr2 & _ & Ho2).
        rewrite Hscan. destruct o2 as [r|e].
        -- destruct Ho2 as (_ & Htot2 & Hrws2).
           run_steps.
           match goal with
           | |- context [scan_all env rest ?s3] =>
               destruct (IH s3) as (o3 & s4 & Hrest & Hd4 & Hinv4 & Hwr4)
           end.
           ++ cbn. congruence.
           ++ destruct Hinv1 as (Ht1 & Hr1).
              split; cbn [total_findings repos_with_secrets results].
              ** rewrite sum_counts_app, Hres2, Htot2, Ht1. reflexivity.
              ** rewrite count_with_secrets_app, Hres2, Hrws2, Hr1. reflexivity.
           ++ exists o3, s4. repeat split; try assumption; try apply Hinv4.
              rewrite Hwr4. cbn. congruence.
        -- destruct Ho2 as (_ & Htot2 & Hrws2).
           exists (Raise e), s2. repeat split; try congruence.
           ++ unfold tally_consistent in *. rewrite Hres2, Htot2. apply Hinv1.
           ++ unfold tally_consistent in *. rewrite Hres2, Hrws2. apply Hinv1.
      * destruct (IH s1 Hd1 Hinv1) as (o3 & s4 & Hrest & Hd4 & Hinv4 & Hwr4).
        exists o3, s4. repeat split; try assumption; try apply Hinv4. congruence.
    + exists (Raise e), s1. repeat split; try assumption; apply Hinv1.
Qed.

(** A clone answers [cloned], unless the user interrupts it. *)
Lemma clone_repository_spec env d url s :
  temp_dir s = Some d ->
  exists s',
    same_tally s s' /\
    (clone_repository env url s
     = (Return (cloned env d url,
                if cloned env d url then clone_path d url else ""), s') \/
     exists e,
       clone_repository env url s = (Raise e, s') /\
       exn_class e = KeyboardInterrupt).
Proof.
  intros Hd. destruct s as [td rs tf rws co ca wr rm]. cbn in Hd. subst td.
  unfold clone_repository, cloned, clone_argv, clone_path. run_monad.
  destruct (subprocess_run env _ 300) as [cp|e].
  - destruct (returncode cp =? 0)%Z;
      (eexists; split; [|left; reflexivity]; repeat split).
  - destruct (exn_class e) eqn:Hc;
      try (eexists; split; [|left; reflexivity]; repeat split).
    eexists. split; [|right; exists e; split; [reflexivity | exact Hc]].
    repeat split.
Qed.

(** X5. A loop that runs to its end has recorded one result per
    repository that was cloned, and none for the others. *)
Lemma results_are_the_cloned_repositories env d urls :
  forall s s',
    temp_dir s = Some d ->
    scan_all env urls s = (Return tt, s') ->
    List.length (results s')
    = List.length (results s) + List.length (filter (cloned env d) urls).
Proof.
  induction urls as [|url rest IH]; intros s s' Hd Hrun.
  - cbn in Hrun. injection Hrun as <-. cbn. lia.
  - cbn [scan_all] in Hrun. unfold bind at 1 in Hrun.
    destruct (clone_repository_spec env d url s Hd)
      as (s1 & (Htd & Hres & _) & [Hclone | (e & Hclone & _)]);
      rewrite Hclone in Hrun; [|discriminate].
    assert (Hd1 : temp_dir s1 = Some d) by congruence.
    cbn [filter]. destruct (cloned env d url); cbn [negb] in Hrun.
    + unfold bind at 1 in Hrun.
      destruct (scan_repository_tally env (clone_path d url) url s1 d Hd1)
        as (o2 & s2 & Hscan & Htd2 & Hres2 & _).
      rewrite Hscan in Hrun. destruct o2 as [r|e]; [|discriminate].
      run_steps in Hrun.
      apply IH in Hrun; [|cbn; congruence].
      rewrite Hrun. cbn [results length]. rewrite length_app, Hres2, Hres.
      cbn. lia.
    + apply IH in Hrun; [|exact Hd1]. rewrite Hrun, Hres. reflexivity.
Qed.

(** Three repositories, the second of which fails to clone: two results,
    one repository with secrets, two findings, and only [C] among the
    blocks of the final report. *)
Example three_repositories_scenario :
  let s := snd (scan_all three_repositories
                  [ "https://example.org/team/A";
                    "https://example.org/team/B";
                    "https://example.org/team/C" ] ready) in
  map repo_name (results s) = ["A"; "C"] /\
  List.length (filter success (results s)) = 2 /\
  repos_with_secrets s = 1 /\
  total_findings s = 2 /\
  secret_blocks (results s)
  = [ RRepository "C"; RUrl "https://example.org/team/C"; RFindings 2;
      RReport "/tmp/w/C_report.json"; RSeparator ].
Proof. vm_compute. repeat split. Qed.

Lemma with_console_app s a b :
  with_console (with_console s a) b = with_console s (a ++ b).
Proof. unfold with_console. cbn. rewrite app_assoc. reflexivity. Qed.

Lemma print_bind {A} l (k : unit -> M A) s :
  bind (print l) k s = k tt (with_console s [l]).
Proof. reflexivity. Qed.

Lemma print_last l s : print l s = (Return tt, with_console s [l]).
Proof. reflexivity. Qed.

Lemma print_all_frame ls : forall s, print_all ls s = (Return tt, with_console s ls).
Proof.
  induction ls as [|l ls IH]; intros s; cbn [print_all].
  - unfold ret. now rewrite with_console_nil.
  - rewrite print_bind, IH, with_console_app. reflexivity.
Qed.

Lemma print_all_bind {A} ls (k : unit -> M A) s :
  bind (print_all ls) k s = k tt (with_console s ls).
Proof. unfold bind. now rewrite print_all_frame. Qed.

Ltac through_prints :=
  repeat first
    [ rewrite print_bind | rewrite print_all_bind | rewrite print_last
    | rewrite print_all_frame | rewrite with_console_app
    | progress cbv beta ].

(** The dependency check answers whether both tools are found and only
    prints. *)
Lemma check_dependencies_frame env s :
  exists extra,
    check_dependencies env s
    = (Return (which env "gitleaks" && which env "git")%bool, with_console s extra).
Proof.
  unfold check_dependencies. cbn [filter].
  destruct (which env "gitleaks"), (which env "git"); cbn [negb andb].
  - exists []. unfold ret. now rewrite with_console_nil.
  - through_prints. unfold ret. eexists. reflexivity.
  - through_prints. unfold ret. eexists. reflexivity.
  - through_prints. unfold ret. eexists. reflexivity.
Qed.

Lemma print_summary_frame s :
  exists extra, print_summary s = (Return tt, with_console s extra).
Proof.
  unfold print_summary. unfold bind at 1, get at 1.
  through_prints.
  destruct (repos_with_secrets s =? 0); through_prints; eexists; reflexivity.
Qed.

(** The final report is written from the counters as they stand. *)
Lemma generate_final_report_spec env s d :
  temp_dir s = Some d ->
  exists o s',
    generate_final_report env s = (o, s') /\
    temp_dir s' = temp_dir s /\ results s' = results s /\
    total_findings s' = total_findings s /\
    repos_with_secrets s' = repos_with_secrets s /\
    (written s' = written s \/
     written s'
     = (written s ++ [(path_join d "final_report.txt", final_report_content env s)])%list).
Proof.
  intros Hd. unfold generate_final_report. run_steps. rewrite Hd.
  destruct (write_file env _) as [[]|e].
  - do 2 eexists. split; [reflexivity|].
    cbn [temp_dir results total_findings repos_with_secrets written with_console].
    repeat (split; [first [assumption | reflexivity]|]). right. reflexivity.
  - do 2 eexists. split; [reflexivity|].
    repeat (split; [first [assumption | reflexivity]|]). left. reflexivity.
Qed.

Lemma final_report_shows_counters env s :
  In (RWithSecrets (repos_with_secrets s)) (final_report_content env s) /\
  In (RTotalFindings (total_findings s)) (final_report_content env s).
Proof. unfold final_report_content. cbn. tauto. Qed.

Lemma tally_consistent_frame s s' :
  results s' = results s ->
  total_findings s' = total_findings s ->
  repos_with_secrets s' = repos_with_secrets s ->
  tally_consistent s -> tally_consistent s'.
Proof. unfold tally_consistent. intros -> -> ->. tauto. Qed.

(** The whole of [run_scan]: the counters stay in step with the results,
    and a final report, when one is written, is written from them. *)
Lemma run_scan_spec env s :
  tally_consistent s ->
  exists o s',
    run_scan env s = (o, s') /\
    run_scan_outcome env o /\
    tally_consistent s' /\
    (written s' = written s \/
     exists file s_rep,
       written s' = (written s ++ [(file, final_report_content env s_rep)])%list /\
       results s_rep = results s' /\
       total_findings s_rep = total_findings s' /\
       repos_with_secrets s_rep = repos_with_secrets s').
Proof.
  intros Hinv. unfold run_scan, run_scan_outcome. through_prints.
  unfold bind at 1.
  match goal with
  | |- context [check_dependencies env ?s0] =>
      destruct (check_dependencies_frame env s0) as (extra & Hdeps)
  end.
  rewrite Hdeps, with_console_app.
  destruct (which env "gitleaks" && which env "git")%bool; cbn [negb];
    [|do 2 eexists; split; [reflexivity|]; split; [reflexivity|];
      split; [exact Hinv | now left]].
  unfold setup_temp_directory.
  unfold bind at 1. unfold bind at 1. unfold lift at 1.
  destruct (mkdtemp env "gitleaks_scan_") as [d|e];
    [|do 2 eexists; split; [reflexivity|]; split; [discriminate|];
      split; [exact Hinv | now left]].
  unfold bind at 1, set_temp_dir at 1. through_prints.
  match goal with
  | |- context [bind (scan_all env REPOSITORIES) _ ?s1] =>
      destruct (scan_all_tally env d REPOSITORIES s1 eq_refl Hinv)
        as (o & s2 & Hloop & Hd2 & Hinv2 & Hwr2);
      unfold bind at 1; rewrite Hloop
  end.
  cbn [written with_console] in Hwr2.
  destruct o as [[]|e];
    [|do 2 eexists; split; [reflexivity|]; split; [discriminate|];
      split; [exact Hinv2 | now left]].
  unfold bind at 1.
  destruct (generate_final_report_spec env s2 d Hd2)
    as (o & s3 & Hrep & Htd3 & Hres3 & Htot3 & Hrws3 & Hwr3).
  rewrite Hrep.
  assert (Hinv3 : tally_consistent s3)
    by (apply (tally_consistent_frame s2); assumption).
  assert (Hwritten :
    written s3 = written s \/
    exists file s_rep,
      written s3 = (written s ++ [(file, final_report_content env s_rep)])%list /\
      results s_rep = results s3 /\
      total_findings s_rep = total_findings s3 /\
      repos_with_secrets s_rep = repos_with_secrets s3).
  { destruct Hwr3 as [Hw|Hw]; [left; congruence|].
    right. exists (path_join d "final_report.txt"), s2.
    rewrite Hw, Hwr2. repeat split; congruence. }
  destruct o as [file|e];
    [|do 2 eexists; split; [reflexivity|]; split; [discriminate|];
      split; [exact Hinv3 | exact Hwritten]].
  unfold bind at 1.
  destruct (print_summary_frame s3) as (extra3 & Hsum). rewrite Hsum.
  do 2 eexists. split; [reflexivity|]. split; [discriminate|].
  split; [exact Hinv3 | exact Hwritten].
Qed.

(** C5. When the run reaches its report, [total_findings] is the sum of
    [findings_count] over [results] and [repos_with_secrets] is the
    number of results with [findings_count > 0]; the final report, when
    written, shows exactly these two numbers. *)
Theorem counters_match_results env :
  let s' := snd (run_scan env init) in
  total_findings s' = sum_counts (results s') /\
  repos_with_secrets s' = count_with_secrets (results s') /\
  forall file content,
    In (file, content) (written s') ->
    In (RTotalFindings (sum_counts (results s'))) content /\
    In (RWithSecrets (count_with_secrets (results s'))) content.
Proof.
  assert (Hinit : tally_consistent init) by (split; reflexivity).
  destruct (run_scan_spec env init Hinit) as (o & s1 & Hrun & _ & Hinv & Hwr).
  rewrite Hrun. cbn [snd]. destruct Hinv as (Htot & Hrws).
  split; [exact Htot|]. split; [exact Hrws|].
  intros file content Hin.
  destruct Hwr as [Hw | (f & s_rep & Hw & Hres & Ht & Hr)];
    rewrite Hw in Hin; cbn in Hin; [contradiction|].
  destruct Hin as [Heq|[]]. injection Heq as _ <-.
  rewrite <- Htot, <- Hrws, <- Ht, <- Hr.
  destruct (final_report_shows_counters env s_rep). tauto.
Qed.

(** ** The console summary *)

(** On Finding objects the summary loop prints one line each and ends. *)
Lemma print_findings_dicts ds :
  forall s,
    print_findings (map PDict ds) s
    = (Return tt, with_console s (map summary_line ds)).
Proof.
  induction ds as [|items ds IH]; intros s; cbn [map print_findings].
  - unfold ret. now rewrite with_console_nil.
  - unfold py_get. run_steps. rewrite IH.
    unfold with_console, summary_line, field. cbn [temp_dir results total_findings
      repos_with_secrets console calls written removed map].
    rewrite <- app_assoc. reflexivity.
Qed.

(** The lines [scan_repository] prints for a report of [ds]. *)
Lemma scan_repository_console env d path url s size ds :
  temp_dir s = Some d ->
  scan_completes env d path ->
  report_on_disk env (report_path d path)
  = Present size (Return (PList (map PDict ds))) ->
  0 < size ->
  console (snd (scan_repository env path url s))
  = (console s ++
     Scanning (basename path) ::
     (if 0 <? List.length ds then
        [ SecretsFound (basename path) (List.length ds);
          ReportAt (report_path d path);
          FindingsSummary ]
        ++ map summary_line (firstn 5 ds)
        ++ (if 5 <? List.length ds
            then [MoreFindings (List.length ds - 5)] else [])
      else [Clean (basename path)]))%list.
Proof.
  intros Hd (cp & Hcp) Hrep Hsize.
  apply Nat.ltb_lt in Hsize.
  destruct s as [td rs tf rws co ca wr rm]. cbn in Hd. subst td.
  unfold scan_argv, report_path in *.
  unfold scan_repository, read_report. run_monad.
  rewrite Hcp, Hrep, Hsize.
  cbn [py_len]. rewrite length_map.
  destruct (0 <? List.length ds); run_monad;
    [|rewrite <- app_assoc; reflexivity].
  cbn [py_slice5 py_iter]. rewrite firstn_map, print_findings_dicts.
  unfold with_console.
  destruct (5 <? List.length ds); run_monad;
    rewrite <- !app_assoc; cbn [app]; rewrite ?app_nil_r; reflexivity.
Qed.

(** C6. For a report that parses to [n] Finding objects the console
    shows: for [n = 0] the clean confirmation; for [0 < n <= 5] one line
    per finding (rule id, description, file, line), all [n] of them, and
    no remainder line; for [n > 5] the lines of the first five findings
    followed by one line counting the other [n - 5]. *)
Theorem console_lists_at_most_five env d path url s size ds :
  temp_dir s = Some d ->
  scan_completes env d path ->
  report_on_disk env (report_path d path)
  = Present size (Return (PList (map PDict ds))) ->
  0 < size ->
  let n := List.length ds in
  let name := basename path in
  let said := console (snd (scan_repository env path url s)) in
  let alarm :=
    [ Scanning name; SecretsFound name n; ReportAt (report_path d path);
      FindingsSummary ] in
  (n = 0 -> said = (console s ++ [Scanning name; Clean name])%list) /\
  (0 < n <= 5 -> said = (console s ++ alarm ++ map summary_line ds)%list) /\
  (5 < n ->
   said = (console s ++ alarm ++ map summary_line (firstn 5 ds)
           ++ [MoreFindings (n - 5)])%list).
Proof.
  intros Hd Hrun Hrep Hsize n name said alarm.
  pose proof (scan_repository_console env d path url s size ds Hd Hrun Hrep Hsize)
    as Hsaid.
  fold n name said in Hsaid.
  split; [|split].
  - intros Hn. rewrite Hsaid, Hn. reflexivity.
  - intros (Hpos & Hle). rewrite Hsaid.
    apply Nat.ltb_lt in Hpos. rewrite Hpos.
    assert (Hno : (5 <? n) = false) by (apply Nat.ltb_ge; exact Hle).
    rewrite Hno, firstn_all2 by exact Hle.
    unfold alarm. cbn [app]. rewrite app_nil_r. reflexivity.
  - intros Hgt. rewrite Hsaid.
    assert (Hpos : (0 <? n) = true) by (apply Nat.ltb_lt; lia).
    apply Nat.ltb_lt in Hgt. rewrite Hpos, Hgt.
    unfold alarm. cbn [app]. reflexivity.
Qed.

Lemma console_lists_at_most_five_witness :
  let six :=
    [ [("ruleID", PStr "aws-access-token"); ("startLine", PInt 3)];
      [("ruleID", PStr "generic-api-key"); ("file", PStr "a.py")];
      [("ruleID", PStr "private-key")];
      [("description", PStr "Slack token")];
      [];
      [("ruleID", PStr "github-pat"); ("file", PStr "b.py"); ("startLine", PInt 9)] ] in
  let env := with_report (fun _ => Present 640 (Return (PList (map PDict six)))) quiet in
  let path := "/tmp/w/AlgoHL" in
  let url := "https://github.com/AlwaysUbaid/AlgoHL" in
  temp_dir ready = Some "/tmp/w" /\
  scan_completes env "/tmp/w" path /\
  report_on_disk env (report_path "/tmp/w" path)
  = Present 640 (Return (PList (map PDict six))) /\
  0 < 640 /\
  let n := List.length six in
  let name := basename path in
  let said := console (snd (scan_repository env path url ready)) in
  let alarm :=
    [ Scanning name; SecretsFound name n; ReportAt (report_path "/tmp/w" path);
      FindingsSummary ] in
  (n = 0 -> said = (console ready ++ [Scanning name; Clean name])%list) /\
  (0 < n <= 5 -> said = (console ready ++ alarm ++ map summary_line six)%list) /\
  (5 < n ->
   said = (console ready ++ alarm ++ map summary_line (firstn 5 six)
           ++ [MoreFindings (n - 5)])%list).
Proof.
  intros six env path url.
  assert (Hrun : scan_completes env "/tmp/w" path) by (eexists; reflexivity).
  assert (Hsize : 0 < 640) by lia.
  split; [reflexivity|]. split; [exact Hrun|]. split; [reflexivity|].
  split; [exact Hsize|].
  exact (console_lists_at_most_five env "/tmp/w" path url ready 640 six
           eq_refl Hrun eq_refl Hsize).
Defined.

(** The scenario of six findings, run. *)
Example six_findings_console :
  let six :=
    [ [("ruleID", PStr "aws-access-token"); ("startLine", PInt 3)];
      [("ruleID", PStr "generic-api-key"); ("file", PStr "a.py")];
      [("ruleID", PStr "private-key")];
      [("description", PStr "Slack token")];
      [];
      [("ruleID", PStr "github-pat"); ("file", PStr "b.py"); ("startLine", PInt 9)] ] in
  let env := with_report (fun _ => Present 640 (Return (PList (map PDict six)))) quiet in
  console (snd (scan_repository env "/tmp/w/AlgoHL"
                  "https://github.com/AlwaysUbaid/AlgoHL" ready))
  = [ Scanning "AlgoHL";
      SecretsFound "AlgoHL" 6;
      ReportAt "/tmp/w/AlgoHL_report.json";
      FindingsSummary;
      FindingLine (PStr "aws-access-token") (PStr "No description")
                  (PStr "Unknown file") (PInt 3);
      FindingLine (PStr "generic-api-key") (PStr "No description")
                  (PStr "a.py") (PStr "Unknown line");
      FindingLine (PStr "private-key") (PStr "No description")
                  (PStr "Unknown file") (PStr "Unknown line");
      FindingLine (PStr "Unknown") (PStr "Slack token")
                  (PStr "Unknown file") (PStr "Unknown line");
      FindingLine (PStr "Unknown") (PStr "No description")
                  (PStr "Unknown file") (PStr "Unknown line");
      MoreFindings 1 ].
Proof. reflexivity. Qed.

(** ** The exit code *)







(** A completed run in which secrets were found exits with code 0. *)
Example secrets_found_exit_code_0 :
  let env :=
    with_report (fun _ => Present 120 (Return (PList [a_finding "aws-access-token"])))
                quiet in
  let (o, s) := main env init in
  o = Return 0 /\ repos_with_secrets s = 6 /\ total_findings s = 6.
Proof. vm_compute. repeat split. Qed.

(** A missing tool ends the run at once, with code 1 and no workspace. *)
Example missing_tool_exit_code_1 :
  let env := with_which (fun tool => negb (String.eqb tool "gitleaks")) quiet in
  let (o, s) := main env init in
  o = Return 1 /\ temp_dir s = None /\ calls s = [].
Proof. vm_compute. repeat split. Qed.

(** A completed run whose first removal fails and whose second goes
    through exits with code 1. *)
Example removal_retried_exit_code_1 :
  let (o, s) := main removal_fails_once init in
  o = Return 1 /\
  removed s = [("/tmp/gitleaks_scan_x", false); ("/tmp/gitleaks_scan_x", true)].
Proof. vm_compute. repeat split. Qed.

(** ** The child processes *)

Lemma clone_repository_calls env d url s :
  temp_dir s = Some d ->
  calls (snd (clone_repository env url s))
  = (calls s ++ [(clone_argv url (clone_path d url), 300)])%list.
Proof.
  intros Hd. destruct s as [td rs tf rws co ca wr rm]. cbn in Hd. subst td.
  unfold clone_repository, clone_argv, clone_path. run_monad.
  destruct (subprocess_run env _ 300) as [cp|e].
  - destruct (returncode cp =? 0)%Z; reflexivity.
  - destruct (exn_class e); reflexivity.
Qed.

(** C8, as the code has it.  The clone runs
    [git clone --depth 1 <url> <dest>] with a timeout of 300; the scan
    runs [gitleaks git --report-path <file> --report-format json
    --no-banner <target>] with a timeout of 600.  Each call runs its
    command once, however the command ends. *)
Theorem child_process_command_lines env d url path s :
  temp_dir s = Some d ->
  calls (snd (clone_repository env url s))
  = (calls s ++
     [(["git"; "clone"; "--depth"; "1"; url; clone_path d url], 300)])%list /\
  calls (snd (scan_repository env path url s))
  = (calls s ++
     [(["gitleaks"; "git"; "--report-path"; report_path d path;
        "--report-format"; "json"; "--no-banner"; path], 600)])%list.
Proof.
  intros Hd. split.
  - exact (clone_repository_calls env d url s Hd).
  - destruct (scan_repository_tally env path url s d Hd)
      as (o & s' & Hrun & _ & _ & _ & Hcalls & _).
    rewrite Hrun. exact Hcalls.
Qed.

Lemma child_process_command_lines_witness :
  let url := "https://github.com/AlwaysUbaid/AlgoHL" in
  let path := "/tmp/w/AlgoHL" in
  temp_dir ready = Some "/tmp/w" /\
  calls (snd (clone_repository quiet url ready))
  = (calls ready ++
     [(["git"; "clone"; "--depth"; "1"; url; clone_path "/tmp/w" url], 300)])%list /\
  calls (snd (scan_repository quiet path url ready))
  = (calls ready ++
     [(["gitleaks"; "git"; "--report-path"; report_path "/tmp/w" path;
        "--report-format"; "json"; "--no-banner"; path], 600)])%list.
Proof.
  intros url path. split; [reflexivity|].
  exact (child_process_command_lines quiet "/tmp/w" url path ready eq_refl).
Defined.

(** C8, as described: the scan does not run
    [gitleaks scan <target> --report-path <file> --report-format json]. *)
Lemma scan_command_is_not_as_described :
  calls (snd (scan_repository quiet "/tmp/w/AlgoHL"
                "https://github.com/AlwaysUbaid/AlgoHL" ready))
  <> [(described_scan_argv (report_path "/tmp/w" "/tmp/w/AlgoHL") "/tmp/w/AlgoHL",
       600)].
Proof. vm_compute. discriminate. Qed.

(** C9. Two scans that both come back, with whatever exit codes, and
    find the same report behave alike: the same result and the same
    state afterwards, counters included. *)
Theorem scanner_exit_code_is_ignored env1 env2 d path url s cp1 cp2 :
  temp_dir s = Some d ->
  subprocess_run env1 (scan_argv (report_path d path) path) 600 = Return cp1 ->
  subprocess_run env2 (scan_argv (report_path d path) path) 600 = Return cp2 ->
  report_on_disk env1 (report_path d path)
  = report_on_disk env2 (report_path d path) ->
  scan_repository env1 path url s = scan_repository env2 path url s.
Proof.
  intros Hd H1 H2 Hrep.
  unfold scan_argv, report_path in *.
  unfold scan_repository, read_report. run_steps.
  rewrite Hd, H1, H2, Hrep. reflexivity.
Qed.

Lemma scanner_exit_code_is_ignored_witness :
  let report := fun _ : string =>
    Present 120 (Return (PList [a_finding "aws-access-token";
                                a_finding "generic-api-key"])) in
  let env1 := with_report report quiet in
  let env2 :=
    with_run (tool_answers "gitleaks" (Return (mk_completed 1 "" "leaks found")))
             env1 in
  let path := "/tmp/w/AlgoHL" in
  let url := "https://github.com/AlwaysUbaid/AlgoHL" in
  temp_dir ready = Some "/tmp/w" /\
  subprocess_run env1 (scan_argv (report_path "/tmp/w" path) path) 600
  = Return (mk_completed 0 "" "") /\
  subprocess_run env2 (scan_argv (report_path "/tmp/w" path) path) 600
  = Return (mk_completed 1 "" "leaks found") /\
  report_on_disk env1 (report_path "/tmp/w" path)
  = report_on_disk env2 (report_path "/tmp/w" path) /\
  scan_repository env1 path url ready = scan_repository env2 path url ready.
Proof.
  intros report env1 env2 path url.
  split; [reflexivity|]. split; [reflexivity|]. split; [reflexivity|].
  split; [reflexivity|].
  exact (scanner_exit_code_is_ignored env1 env2 "/tmp/w" path url ready
           (mk_completed 0 "" "") (mk_completed 1 "" "leaks found")
           eq_refl eq_refl eq_refl eq_refl).
Defined.

(** C10. A report that parses to a value without a length (null, a
    boolean, a number) does not give the zero-findings result: [len]
    raises a TypeError, the generic handler turns it into a result
    with [success] false and the error message, and the counters stay
    as they were. *)
Theorem unsized_report_is_scan_failure env d path url s size v :
  temp_dir s = Some d ->
  scan_completes env d path ->
  report_on_disk env (report_path d path) = Present size (Return v) ->
  0 < size ->
  has_no_len v = true ->
  exists r s',
    scan_repository env path url s = (Return r, s') /\
    r <> clean_result d path url /\
    success r = false /\
    error r = Some ("Error scanning " ++ basename path ++ ": object of type '"
                    ++ type_name v ++ "' has no len()") /\
    findings r = PList [] /\
    findings_count r = 0 /\
    total_findings s' = total_findings s /\
    repos_with_secrets s' = repos_with_secrets s.
Proof.
  intros Hd (cp & Hcp) Hrep Hsize Hv.
  apply Nat.ltb_lt in Hsize.
  destruct s as [td rs tf rws co ca wr rm]. cbn in Hd. subst td.
  unfold scan_argv, report_path in *.
  unfold scan_repository, read_report. run_monad.
  rewrite Hcp, Hrep, Hsize.
  destruct v; try discriminate Hv; cbn [py_len exn_class exn_str type_name];
    (do 2 eexists; split; [reflexivity|]; split; [discriminate|]; repeat split).
Qed.

Lemma unsized_report_is_scan_failure_witness :
  let env := with_report (fun _ => Present 4 (Return PNone)) quiet in
  let path := "/tmp/w/AlgoHL" in
  let url := "https://github.com/AlwaysUbaid/AlgoHL" in
  temp_dir ready = Some "/tmp/w" /\
  scan_completes env "/tmp/w" path /\
  report_on_disk env (report_path "/tmp/w" path) = Present 4 (Return PNone) /\
  0 < 4 /\
  has_no_len PNone = true /\
  exists r s',
    scan_repository env path url ready = (Return r, s') /\
    r <> clean_result "/tmp/w" path url /\
    success r = false /\
    error r = Some ("Error scanning " ++ basename path ++ ": object of type '"
                    ++ type_name PNone ++ "' has no len()") /\
    findings r = PList [] /\
    findings_count r = 0 /\
    total_findings s' = total_findings ready /\
    repos_with_secrets s' = repos_with_secrets ready.
Proof.
  intros env path url.
  assert (Hrun : scan_completes env "/tmp/w" path) by (eexists; reflexivity).
  assert (Hsize : 0 < 4) by lia.
  split; [reflexivity|]. split; [exact Hrun|]. split; [reflexivity|].
  split; [exact Hsize|]. split; [reflexivity|].
  exact (unsized_report_is_scan_failure env "/tmp/w" path url ready 4 PNone
           eq_refl Hrun eq_refl Hsize eq_refl).
Defined.

(** ** Further runs *)

(** An interrupt at the prompt: exit code 1, the workspace removed. *)
Example interrupt_at_prompt_exit_code_1 :
  let env := with_input (fun _ => Raise (mk_exn KeyboardInterrupt "")) quiet in
  let (o, s) := main env init in
  o = Return 1 /\ removed s = [("/tmp/gitleaks_scan_x", true)] /\
  List.length (results s) = 6.
Proof. vm_compute. repeat split. Qed.

(** A report holding a JSON object with members: [len] is defined, the
    slice [findings[:5]] raises after the alarm lines are out, and the
    scan is recorded as failed. *)
Example object_report_is_scan_failure :
  let env :=
    with_report (fun _ => Present 20 (Return (PDict [("ruleID", PStr "x")]))) quiet in
  let (o, s) := scan_repository env "/tmp/w/AlgoHL"
                  "https://github.com/AlwaysUbaid/AlgoHL" ready in
  o = Return (failed_result "AlgoHL" "https://github.com/AlwaysUbaid/AlgoHL"
                "/tmp/w/AlgoHL" "/tmp/w/AlgoHL_report.json"
                "Error scanning AlgoHL: unhashable type: 'slice'") /\
  console s = [ Scanning "AlgoHL"; SecretsFound "AlgoHL" 1;
                ReportAt "/tmp/w/AlgoHL_report.json"; FindingsSummary;
                ScanError "Error scanning AlgoHL: unhashable type: 'slice'" ] /\
  total_findings s = 0 /\ repos_with_secrets s = 0.
Proof. vm_compute. repeat split. Qed.

(** A report holding a list whose second element is not an object: the
    first line of the summary is printed, then [.get] raises. *)
Example non_object_finding_is_scan_failure :
  let env :=
    with_report (fun _ => Present 20 (Return (PList [a_finding "private-key"; PInt 7])))
                quiet in
  let (o, s) := scan_repository env "/tmp/w/AlgoHL"
                  "https://github.com/AlwaysUbaid/AlgoHL" ready in
  o = Return (failed_result "AlgoHL" "https://github.com/AlwaysUbaid/AlgoHL"
                "/tmp/w/AlgoHL" "/tmp/w/AlgoHL_report.json"
                "Error scanning AlgoHL: 'int' object has no attribute 'get'") /\
  console s = [ Scanning "AlgoHL"; SecretsFound "AlgoHL" 2;
                ReportAt "/tmp/w/AlgoHL_report.json"; FindingsSummary;
                FindingLine (PStr "private-key") (PStr "a secret")
                            (PStr "config.py") (PInt 3);
                ScanError "Error scanning AlgoHL: 'int' object has no attribute 'get'" ] /\
  total_findings s = 0 /\ repos_with_secrets s = 0.
Proof. vm_compute. repeat split. Qed.

(** * Further properties *)

(** ** What removes a directory *)

Create HintDb frame.

Lemma ret_removes_nothing {A} (a : A) : removes_nothing (ret a).
Proof. intros s. reflexivity. Qed.

Lemma raise_removes_nothing {A} e : removes_nothing (@raise A e).
Proof. intros s. reflexivity. Qed.

Lemma lift_removes_nothing {A} (o : outcome A) : removes_nothing (lift o).
Proof. intros s. reflexivity. Qed.

Lemma get_removes_nothing {A} (f : State -> A) : removes_nothing (get f).
Proof. intros s. reflexivity. Qed.

Lemma print_removes_nothing l : removes_nothing (print l).
Proof. intros s. reflexivity. Qed.

Lemma join_temp_dir_removes_nothing name : removes_nothing (join_temp_dir name).
Proof. intros s. unfold join_temp_dir. destruct (temp_dir s); reflexivity. Qed.

Lemma set_temp_dir_removes_nothing d : removes_nothing (set_temp_dir d).
Proof. intros s. reflexivity. Qed.

Lemma count_secrets_removes_nothing n : removes_nothing (count_secrets n).
Proof. intros s. reflexivity. Qed.

Lemma append_result_removes_nothing r : removes_nothing (append_result r).
Proof. intros s. reflexivity. Qed.

Lemma log_call_removes_nothing argv t : removes_nothing (log_call argv t).
Proof. intros s. reflexivity. Qed.

Lemma log_written_removes_nothing file content :
  removes_nothing (log_written file content).
Proof. intros s. reflexivity. Qed.

Lemma bind_removes_nothing {A B} (c : M A) (k : A -> M B) :
  removes_nothing c -> (forall a, removes_nothing (k a)) ->
  removes_nothing (bind c k).
Proof.
  intros Hc Hk s. unfold bind. specialize (Hc s).
  destruct (c s) as [[a|e] s1]; cbn [snd] in *.
  - rewrite Hk. exact Hc.
  - exact Hc.
Qed.

Lemma try_except_removes_nothing {A} (body : M A) handler :
  removes_nothing body -> (forall e, removes_nothing (handler e)) ->
  removes_nothing (try_except body handler).
Proof.
  intros Hb Hh s. unfold try_except. specialize (Hb s).
  destruct (body s) as [[a|e] s1]; cbn [snd] in *.
  - exact Hb.
  - rewrite Hh. exact Hb.
Qed.

#[local] Hint Resolve ret_removes_nothing raise_removes_nothing
  lift_removes_nothing get_removes_nothing print_removes_nothing
  join_temp_dir_removes_nothing set_temp_dir_removes_nothing
  count_secrets_removes_nothing append_result_removes_nothing
  log_call_removes_nothing log_written_removes_nothing : frame.

(** Walks a computation down to its primitive steps. *)
Ltac frame :=
  repeat first
    [ progress intros
    | solve [auto with frame]
    | apply bind_removes_nothing
    | apply try_except_removes_nothing
    | match goal with
      | |- removes_nothing (match ?x with _ => _ end) => destruct x
      end ].

Lemma print_all_removes_nothing ls : removes_nothing (print_all ls).
Proof. induction ls; cbn [print_all]; frame. Qed.

Lemma print_findings_removes_nothing items : removes_nothing (print_findings items).
Proof. induction items; cbn [print_findings]; frame. Qed.

#[local] Hint Resolve print_all_removes_nothing print_findings_removes_nothing : frame.

Lemma check_dependencies_removes_nothing env :
  removes_nothing (check_dependencies env).
Proof. unfold check_dependencies. frame. Qed.

Lemma setup_temp_directory_removes_nothing env :
  removes_nothing (setup_temp_directory env).
Proof. unfold setup_temp_directory. frame. Qed.

Lemma clone_repository_removes_nothing env url :
  removes_nothing (clone_repository env url).
Proof. unfold clone_repository, run. frame. Qed.

Lemma scan_repository_removes_nothing env path url :
  removes_nothing (scan_repository env path url).
Proof. unfold scan_repository, read_report, run. frame. Qed.

#[local] Hint Resolve check_dependencies_removes_nothing
  setup_temp_directory_removes_nothing clone_repository_removes_nothing
  scan_repository_removes_nothing : frame.

Lemma scan_all_removes_nothing env urls : removes_nothing (scan_all env urls).
Proof. induction urls; cbn [scan_all]; frame. Qed.

Lemma generate_final_report_removes_nothing env :
  removes_nothing (generate_final_report env).
Proof. unfold generate_final_report. frame. Qed.

Lemma print_summary_removes_nothing : removes_nothing print_summary.
Proof. unfold print_summary. frame. Qed.

#[local] Hint Resolve scan_all_removes_nothing
  generate_final_report_removes_nothing print_summary_removes_nothing : frame.


(** ** The dependency check *)

Lemma check_dependencies_missing env s :
  tool_missing env ->
  exists hints,
    check_dependencies env s
    = (Return false,
       with_console s
         (MissingTools (filter (fun tool => negb (which env tool)) ["gitleaks"; "git"])
          :: Text "Please install missing tools:" :: hints)).
Proof.
  unfold tool_missing, check_dependencies. cbn [filter].
  destruct (which env "gitleaks"), (which env "git"); cbn [negb];
    intros [H|H]; try discriminate H;
    through_prints; unfold ret; eexists; reflexivity.
Qed.

(** X1. When [gitleaks] or [git] is not found, [run_scan] returns [False]
    having only printed: the banner, then the list of exactly the
    missing tools.  No workspace is created, no command is run and no
    file is written. *)
Theorem missing_tool_aborts_before_any_work env s :
  tool_missing env ->
  exists said,
    run_scan env s = (Return false, with_console s said) /\
    In (MissingTools (filter (fun tool => negb (which env tool)) ["gitleaks"; "git"]))
       said.
Proof.
  intros Hmiss. unfold run_scan. through_prints. unfold bind at 1.
  match goal with
  | |- context [check_dependencies env ?s0] =>
      destruct (check_dependencies_missing env s0 Hmiss) as (hints & Hdeps)
  end.
  rewrite Hdeps, with_console_app. cbn [negb]. unfold ret.
  eexists. split; [reflexivity|].
  apply in_or_app. right. now left.
Qed.

Lemma missing_tool_aborts_before_any_work_witness :
  let env := with_which (fun tool => String.eqb tool "gitleaks") quiet in
  tool_missing env /\
  exists said,
    run_scan env init = (Return false, with_console init said) /\
    In (MissingTools (filter (fun tool => negb (which env tool)) ["gitleaks"; "git"]))
       said.
Proof.
  intros env.
  assert (Hmiss : tool_missing env) by (right; reflexivity).
  split; [exact Hmiss|].
  exact (missing_tool_aborts_before_any_work env init Hmiss).
Defined.

(** ** The workspace *)

(** What [cleanup] does, in full. *)
Lemma cleanup_spec env keep s :
  exists o s',
    cleanup env keep s = (o, s') /\
    temp_dir s' = temp_dir s /\ results s' = results s /\
    total_findings s' = total_findings s /\
    repos_with_secrets s' = repos_with_secrets s /\
    calls s' = calls s /\ written s' = written s /\
    match to_remove env keep s with
    | None => o = Return tt /\ removed s' = removed s
    | Some dir =>
        match rmtree env dir (List.length (removed s)) with
        | Return _ =>
            o = Return tt /\ removed s' = (removed s ++ [(dir, true)])%list
        | Raise e =>
            o = Raise e /\ removed s' = (removed s ++ [(dir, false)])%list
        end
    end /\
    ((forall d,
        temp_dir s = Some d ->
        d = "" \/ path_exists env d (List.length (removed s)) = false) ->
     s' = s).
Proof.
  unfold cleanup, to_remove.
  destruct s as [td rs tf rws co ca wr rm]. run_monad.
  destruct td as [dir|].
  2:{ do 2 eexists. split; [reflexivity|]. repeat split. }
  destruct (dir =? "")%string eqn:Hempty; cbn [negb andb].
  { do 2 eexists. split; [reflexivity|]. repeat split. }
  destruct (path_exists env dir (List.length rm)) eqn:Hex; cbn [andb].
  2:{ do 2 eexists. split; [reflexivity|]. repeat split. }
  assert (Hthere : (forall d, Some dir = Some d -> d = "" \/
                      path_exists env d (List.length rm) = false) -> False).
  { intros Hnone. destruct (Hnone dir eq_refl) as [-> | Habs];
      [discriminate Hempty | congruence]. }
  destruct keep; cbn [negb].
  { do 2 eexists. split; [reflexivity|]. repeat split.
    intros Hnone. now apply Hthere in Hnone. }
  unfold log_removed. run_monad.
  destruct (rmtree env dir (List.length rm)) as [[]|e];
    (do 2 eexists; split; [reflexivity|]; repeat split;
     intros Hnone; now apply Hthere in Hnone).
Qed.

(** X2. [cleanup] touches nothing but the workspace.  It calls
    [shutil.rmtree] on [temp_dir], and on nothing else, exactly when
    [temp_dir] is set, not empty, exists and [keep_files] is false; it
    raises exactly when that call raises, with the same exception, and
    returns otherwise.  Results, counters, commands and written files
    stay as they were, and nothing at all happens when there is no such
    directory. *)
Theorem cleanup_removes_only_the_workspace env keep s :
  exists o s',
    cleanup env keep s = (o, s') /\
    temp_dir s' = temp_dir s /\ results s' = results s /\
    total_findings s' = total_findings s /\
    repos_with_secrets s' = repos_with_secrets s /\
    calls s' = calls s /\ written s' = written s /\
    match to_remove env keep s with
    | None => o = Return tt /\ removed s' = removed s
    | Some dir =>
        match rmtree env dir (List.length (removed s)) with
        | Return _ =>
            o = Return tt /\ removed s' = (removed s ++ [(dir, true)])%list
        | Raise e =>
            o = Raise e /\ removed s' = (removed s ++ [(dir, false)])%list
        end
    end /\
    ((forall d,
        temp_dir s = Some d ->
        d = "" \/ path_exists env d (List.length (removed s)) = false) ->
     s' = s).
Proof. exact (cleanup_spec env keep s). Qed.

(** A failed removal: [cleanup] raises what [shutil.rmtree] raised. *)
Example cleanup_raises_what_rmtree_raises :
  let s := mk_state (Some "/tmp/gitleaks_scan_x") [] 0 0 [] [] [] [] in
  cleanup removal_fails false s
  = (Raise (mk_exn OtherException
              "[Errno 13] Permission denied: '/tmp/gitleaks_scan_x'"),
     mk_state (Some "/tmp/gitleaks_scan_x") [] 0 0 [CleaningUp] [] []
              [("/tmp/gitleaks_scan_x", false)]).
Proof. reflexivity. Qed.








(** ** Names and paths *)

Lemma append_one_assoc acc c rest :
  ((acc ++ String c "") ++ rest)%string = (acc ++ String c rest)%string.
Proof. induction acc as [|a acc IH]; cbn; [reflexivity | now rewrite IH]. Qed.

Lemma append_slash_free a b :
  slash_free a = true -> slash_free b = true -> slash_free (a ++ b) = true.
Proof.
  induction a as [|c a IH]; cbn; [auto|].
  intros Ha Hb. apply andb_true_iff in Ha as (Hc & Ha).
  rewrite Hc. cbn. auto.
Qed.

(** On a string without ['/'] the scan for the last segment only
    accumulates. *)
Lemma last_segment_slash_free_arg b :
  forall acc, slash_free b = true -> last_segment acc b = (acc ++ b)%string.
Proof.
  induction b as [|c b IH]; intros acc Hb; cbn in *.
  - induction acc; cbn; congruence.
  - apply andb_true_iff in Hb as (Hc & Hb).
    apply negb_true_iff in Hc. rewrite Hc, IH by exact Hb.
    apply append_one_assoc.
Qed.

Lemma last_segment_is_slash_free s :
  forall acc, slash_free acc = true -> slash_free (last_segment acc s) = true.
Proof.
  induction s as [|c s IH]; intros acc Hacc; cbn; [exact Hacc|].
  destruct (Ascii.eqb c "/") eqn:Hc.
  - now apply IH.
  - apply IH, append_slash_free; [exact Hacc|]. cbn. now rewrite Hc.
Qed.

(** A repository name never contains a ['/']. *)
Lemma basename_slash_free p : slash_free (basename p) = true.
Proof. now apply last_segment_is_slash_free. Qed.

Lemma last_segment_after_slash name d :
  forall acc,
    slash_free name = true ->
    last_segment acc (d ++ String "/" name) = name.
Proof.
  induction d as [|c d IH]; intros acc Hn; cbn.
  - now rewrite last_segment_slash_free_arg.
  - destruct (Ascii.eqb c "/"); now apply IH.
Qed.

Lemma ends_with_slash_split d :
  ends_with_slash d = true -> exists d0, d = (d0 ++ "/")%string.
Proof.
  induction d as [|c d IH]; cbn; [discriminate|].
  destruct d as [|c' d'].
  - intros Hc. apply Ascii.eqb_eq in Hc. subst c. now exists "".
  - intros Hd. destruct (IH Hd) as (d0 & ->). now exists (String c d0).
Qed.

Lemma slash_free_no_leading_slash name :
  slash_free name = true -> starts_with_slash name = false.
Proof.
  destruct name as [|c name]; cbn; [reflexivity|].
  intros H. apply andb_true_iff in H as (Hc & _). now apply negb_true_iff.
Qed.

(** [basename] undoes [os.path.join] on a name without ['/']. *)
Lemma basename_path_join d name :
  slash_free name = true -> basename (path_join d name) = name.
Proof.
  intros Hn. unfold basename, path_join.
  rewrite (slash_free_no_leading_slash name Hn).
  destruct (d =? "")%string eqn:He; cbn [orb].
  - apply String.eqb_eq in He. subst d. cbn.
    now rewrite last_segment_slash_free_arg.
  - destruct (ends_with_slash d) eqn:Hs.
    + destruct (ends_with_slash_split d Hs) as (d0 & ->).
      replace ((d0 ++ "/") ++ name)%string with (d0 ++ String "/" name)%string
        by (symmetry; apply append_one_assoc).
      now apply last_segment_after_slash.
    + now apply last_segment_after_slash.
Qed.

Ltac finish_shape :=
  cbn; repeat (split; [reflexivity|]);
  first [exact I | left; reflexivity | right; reflexivity].

Ltac shape_through_summary :=
  match goal with
  | |- context [print_findings ?items ?s1] =>
      let o := fresh "o" in
      let extra := fresh "extra" in
      let Hx := fresh "Hx" in
      let e := fresh "e" in
      destruct (print_findings_frame items s1) as (o & extra & Hx);
      rewrite Hx; unfold with_console; destruct o as [[]|e];
      [|destruct (exn_class e)]; run_monad
  end.

(** Every result [scan_repository] returns is labelled with the
    arguments of the call, and has [success] true or no findings. *)
Lemma scan_repository_result env path url s d :
  temp_dir s = Some d ->
  match fst (scan_repository env path url s) with
  | Return r =>
      repo_name r = basename path /\ repo_url r = url /\ repo_path r = path /\
      report_file r = report_path d path /\
      (success r = true \/ findings_count r = 0)
  | Raise _ => True
  end.
Proof.
  intros Hd. destruct s as [td rs tf rws co ca wr rm]. cbn in Hd. subst td.
  unfold scan_repository, read_report, report_path. run_monad.
  destruct (subprocess_run env _ 600) as [cp|e].
  - destruct (report_on_disk env _) as [|size load]; [finish_shape|].
    destruct (0 <? size); [|finish_shape].
    destruct load as [v|e].
    + destruct v; cbn [py_len type_name exn_class]; try finish_shape.
      * destruct (String.length s) as [|n]; [finish_shape|].
        split_on_count n; shape_through_summary; finish_shape.
      * destruct (List.length l) as [|n]; [finish_shape|].
        split_on_count n; shape_through_summary; finish_shape.
      * destruct (List.length _) as [|n]; [finish_shape|].
        split_on_count n; finish_shape.
    + destruct (exn_class e) eqn:Hc; run_monad; rewrite ?Hc; run_monad;
        finish_shape.
  - destruct (exn_class e); finish_shape.
Qed.

(** One step of the loop, as a relation between the states before and
    after the repository [url]. *)
Lemma scan_all_step env d url rest s :
  temp_dir s = Some d ->
  (exists s1,
     scan_all env (url :: rest) s = scan_all env rest s1 /\
     temp_dir s1 = Some d /\
     (results s1 = results s \/
      exists r,
        results s1 = (results s ++ [r])%list /\
        cloned env d url = true /\
        repo_name r = basename (clone_path d url) /\ repo_url r = url /\
        repo_path r = clone_path d url /\
        report_file r = report_path d (clone_path d url) /\
        (success r = true \/ findings_count r = 0))) \/
  (exists e s1,
     scan_all env (url :: rest) s = (Raise e, s1) /\
     temp_dir s1 = Some d /\ results s1 = results s).
Proof.
  intros Hd.
  destruct (clone_repository_spec env d url s Hd)
    as (s1 & (Htd & Hres & _) & [Hclone | (e & Hclone & _)]).
  2:{ right. exists e, s1. cbn [scan_all]. unfold bind at 1. rewrite Hclone.
      repeat split; congruence. }
  assert (Hd1 : temp_dir s1 = Some d) by congruence.
  destruct (cloned env d url) eqn:Hcl.
  2:{ left. exists s1. cbn [scan_all]. unfold bind at 1. rewrite Hclone.
      split; [reflexivity|]. split; [exact Hd1 | now left]. }
  pose proof (scan_repository_result env (clone_path d url) url s1 d Hd1) as Hshape.
  destruct (scan_repository_tally env (clone_path d url) url s1 d Hd1)
    as (o2 & s2 & Hscan & Htd2 & Hres2 & _).
  rewrite Hscan in Hshape. cbn [fst] in Hshape. destruct o2 as [r|e].
  - left. cbn [scan_all]. unfold bind at 1. rewrite Hclone. cbn [negb].
    unfold bind at 1. rewrite Hscan. run_steps.
    eexists. split; [reflexivity|].
    split; [cbn; congruence|]. right. exists r.
    split; [cbn [results]; rewrite Hres2, Hres; reflexivity|].
    split; [reflexivity|]. exact Hshape.
  - right. exists e, s2. cbn [scan_all]. unfold bind at 1. rewrite Hclone.
    cbn [negb]. unfold bind at 1. rewrite Hscan.
    repeat split; congruence.
Qed.

(** An invariant of the results that holds of every new result is kept
    by the loop, however the loop ends. *)
Lemma scan_all_results_invariant env d (P : ScanResult -> Prop) urls :
  (forall url r,
     In url urls ->
     repo_name r = basename (clone_path d url) -> repo_url r = url ->
     repo_path r = clone_path d url ->
     report_file r = report_path d (clone_path d url) ->
     (success r = true \/ findings_count r = 0) ->
     P r) ->
  forall s,
    temp_dir s = Some d ->
    Forall P (results s) ->
    Forall P (results (snd (scan_all env urls s))).
Proof.
  induction urls as [|url rest IH]; intros Hnew s Hd Hall; [exact Hall|].
  assert (Hrest : forall url r,
             In url rest ->
             repo_name r = basename (clone_path d url) -> repo_url r = url ->
             repo_path r = clone_path d url ->
             report_file r = report_path d (clone_path d url) ->
             (success r = true \/ findings_count r = 0) ->
             P r).
  { intros u r Hin. apply Hnew. now right. }
  destruct (scan_all_step env d url rest s Hd)
    as [(s1 & Hstep & Hd1 & Hres) | (e & s1 & Hstep & _ & Hres)];
    rewrite Hstep.
  - apply (IH Hrest s1 Hd1).
    destruct Hres as [-> | (r & -> & _ & Hn & Hu & Hp & Hf & Hs)]; [exact Hall|].
    apply Forall_app. split; [exact Hall|]. constructor; [|constructor].
    apply (Hnew url r); auto. now left.
  - cbn [snd]. now rewrite Hres.
Qed.

(** X4. Every result the loop records is named after its URL: its name
    is the last segment of the URL, its clone is that name inside the
    workspace and its report is [<name>_report.json] inside the
    workspace. *)
Theorem results_are_named_after_their_urls env d urls s :
  temp_dir s = Some d ->
  Forall (named_after_url d) (results s) ->
  Forall (named_after_url d) (results (snd (scan_all env urls s))).
Proof.
  intros Hd Hall.
  apply (scan_all_results_invariant env d (named_after_url d) urls); try assumption.
  intros url r _ Hname Hurl Hpath Hfile _.
  unfold clone_path, report_path in *.
  rewrite basename_path_join in Hname, Hfile by apply basename_slash_free.
  unfold named_after_url. rewrite Hurl. auto.
Qed.

Lemma results_are_named_after_their_urls_witness :
  let urls := [ "https://example.org/team/A"; "https://example.org/team/B";
                "https://example.org/team/C" ] in
  temp_dir ready = Some "/tmp/w" /\
  Forall (named_after_url "/tmp/w") (results ready) /\
  Forall (named_after_url "/tmp/w")
         (results (snd (scan_all three_repositories urls ready))).
Proof.
  intros urls.
  assert (Hnil : Forall (named_after_url "/tmp/w") (results ready)) by constructor.
  split; [reflexivity|]. split; [exact Hnil|].
  exact (results_are_named_after_their_urls three_repositories "/tmp/w" urls ready
           eq_refl Hnil).
Defined.

Lemma results_are_the_cloned_repositories_witness :
  let urls := [ "https://example.org/team/A"; "https://example.org/team/B";
                "https://example.org/team/C" ] in
  let s' := snd (scan_all three_repositories urls ready) in
  temp_dir ready = Some "/tmp/w" /\
  scan_all three_repositories urls ready = (Return tt, s') /\
  List.length (results s')
  = List.length (results ready)
    + List.length (filter (cloned three_repositories "/tmp/w") urls).
Proof.
  intros urls s'.
  assert (Hrun : scan_all three_repositories urls ready = (Return tt, s'))
    by (vm_compute; reflexivity).
  split; [reflexivity|]. split; [exact Hrun|].
  exact (results_are_the_cloned_repositories three_repositories "/tmp/w" urls
           ready s' eq_refl Hrun).
Defined.

(** ** The commands of a run *)

(** X6. A loop that runs to its end has run, for each URL in turn, one
    clone and, exactly when that clone exited with code 0, one scan of
    the clone: no repository is scanned that was not cloned, none is
    cloned twice, and nothing else is run. *)
Theorem loop_command_trace env d urls :
  forall s s',
    temp_dir s = Some d ->
    scan_all env urls s = (Return tt, s') ->
    calls s' = (calls s ++ command_trace env d urls)%list.
Proof.
  induction urls as [|url rest IH]; intros s s' Hd Hrun.
  - cbn in Hrun. injection Hrun as <-. cbn. now rewrite app_nil_r.
  - cbn [scan_all] in Hrun. unfold bind at 1 in Hrun.
    pose proof (clone_repository_calls env d url s Hd) as Hcalls.
    destruct (clone_repository_spec env d url s Hd)
      as (s1 & (Htd & _) & [Hclone | (e & Hclone & _)]);
      rewrite Hclone in Hrun, Hcalls; [|discriminate].
    cbn [snd] in Hcalls.
    assert (Hd1 : temp_dir s1 = Some d) by congruence.
    unfold command_trace. cbn [flat_map]. fold (command_trace env d rest).
    destruct (cloned env d url); cbn [negb] in Hrun.
    + unfold bind at 1 in Hrun.
      destruct (scan_repository_tally env (clone_path d url) url s1 d Hd1)
        as (o2 & s2 & Hscan & Htd2 & _ & _ & Hcalls2 & _).
      rewrite Hscan in Hrun. destruct o2 as [r|e]; [|discriminate].
      run_steps in Hrun.
      apply IH in Hrun; [|cbn; congruence].
      rewrite Hrun. cbn [calls]. rewrite Hcalls2, Hcalls.
      rewrite <- !app_assoc. reflexivity.
    + apply IH in Hrun; [|exact Hd1]. rewrite Hrun, Hcalls.
      rewrite <- !app_assoc. reflexivity.
Qed.

Lemma loop_command_trace_witness :
  let urls := [ "https://example.org/team/A"; "https://example.org/team/B";
                "https://example.org/team/C" ] in
  let s' := snd (scan_all three_repositories urls ready) in
  temp_dir ready = Some "/tmp/w" /\
  scan_all three_repositories urls ready = (Return tt, s') /\
  calls s' = (calls ready ++ command_trace three_repositories "/tmp/w" urls)%list.
Proof.
  intros urls s'.
  assert (Hrun : scan_all three_repositories urls ready = (Return tt, s'))
    by (vm_compute; reflexivity).
  split; [reflexivity|]. split; [exact Hrun|].
  exact (loop_command_trace three_repositories "/tmp/w" urls ready s' eq_refl Hrun).
Defined.

(** The commands of the three-repository scenario: [B] is cloned and not
    scanned. *)
Example three_repositories_commands :
  calls (snd (scan_all three_repositories
                [ "https://example.org/team/A"; "https://example.org/team/B";
                  "https://example.org/team/C" ] ready))
  = [ (["git"; "clone"; "--depth"; "1"; "https://example.org/team/A"; "/tmp/w/A"], 300);
      (["gitleaks"; "git"; "--report-path"; "/tmp/w/A_report.json";
        "--report-format"; "json"; "--no-banner"; "/tmp/w/A"], 600);
      (["git"; "clone"; "--depth"; "1"; "https://example.org/team/B"; "/tmp/w/B"], 300);
      (["git"; "clone"; "--depth"; "1"; "https://example.org/team/C"; "/tmp/w/C"], 300);
      (["gitleaks"; "git"; "--report-path"; "/tmp/w/C_report.json";
        "--report-format"; "json"; "--no-banner"; "/tmp/w/C"], 600) ].
Proof. vm_compute. reflexivity. Qed.

(** ** The whole run *)

Lemma generate_final_report_calls env s :
  calls (snd (generate_final_report env s)) = calls s.
Proof.
  unfold generate_final_report. run_steps.
  destruct (temp_dir s); [|reflexivity].
  destruct (write_file env _) as [[]|e]; reflexivity.
Qed.

(** The results and the commands of [run_scan] are those of its loop,
    started in a workspace with nothing recorded. *)
Lemma run_scan_factors env :
  exists o s',
    run_scan env init = (o, s') /\
    ((results s' = [] /\ calls s' = [] /\ o <> Return true) \/
     exists d s1 o1 s2,
       mkdtemp env "gitleaks_scan_" = Return d /\
       temp_dir s1 = Some d /\ results s1 = [] /\ calls s1 = [] /\
       scan_all env REPOSITORIES s1 = (o1, s2) /\
       results s' = results s2 /\ calls s' = calls s2 /\
       (o = Return true -> o1 = Return tt)).
Proof.
  unfold run_scan. through_prints. unfold bind at 1.
  match goal with
  | |- context [check_dependencies env ?s0] =>
      destruct (check_dependencies_frame env s0) as (extra & Hdeps)
  end.
  rewrite Hdeps, with_console_app.
  destruct (which env "gitleaks" && which env "git")%bool; cbn [negb].
  2:{ do 2 eexists. split; [reflexivity|]. left.
      repeat split; discriminate. }
  unfold setup_temp_directory.
  unfold bind at 1. unfold bind at 1. unfold lift at 1.
  destruct (mkdtemp env "gitleaks_scan_") as [d|e].
  2:{ do 2 eexists. split; [reflexivity|]. left.
      repeat split; discriminate. }
  unfold bind at 1, set_temp_dir at 1. through_prints.
  match goal with
  | |- context [bind (scan_all env REPOSITORIES) _ ?s1] =>
      destruct (scan_all_tally env d REPOSITORIES s1 eq_refl)
        as (o1 & s2 & Hloop & Hd2 & _);
        [split; reflexivity|];
      unfold bind at 1; rewrite Hloop;
      assert (Hfrom : exists s1', temp_dir s1' = Some d /\ results s1' = [] /\
                        calls s1' = [] /\
                        scan_all env REPOSITORIES s1' = (o1, s2))
        by (exists s1; repeat split; exact Hloop)
  end.
  destruct Hfrom as (s1 & Hd1 & Hr1 & Hc1 & Hloop1).
  destruct o1 as [[]|e].
  2:{ do 2 eexists. split; [reflexivity|]. right.
      exists d, s1, (Raise e), s2. repeat split; try assumption. discriminate. }
  unfold bind at 1.
  pose proof (generate_final_report_calls env s2) as Hcalls3.
  destruct (generate_final_report_spec env s2 d Hd2)
    as (o3 & s3 & Hrep & _ & Hres3 & _).
  rewrite Hrep in *. cbn [snd] in Hcalls3. destruct o3 as [file|e].
  2:{ do 2 eexists. split; [reflexivity|]. right.
      exists d, s1, (Return tt), s2. repeat split; try assumption. }
  unfold bind at 1.
  destruct (print_summary_frame s3) as (extra3 & Hsum). rewrite Hsum.
  do 2 eexists. split; [reflexivity|]. right.
  exists d, s1, (Return tt), s2. repeat split; assumption.
Qed.

Lemma secrets_counted_iff_any rs :
  (0 <? count_with_secrets rs) = existsb (fun r => 0 <? findings_count r) rs.
Proof.
  unfold count_with_secrets.
  induction rs as [|r rs IH]; cbn [filter existsb]; [reflexivity|].
  destruct (0 <? findings_count r); cbn [orb length]; [reflexivity | exact IH].
Qed.

(** X7. The final report [run_scan] writes is determined by the recorded
    results: its three numbers are derived from them, and it lists one
    block per result with findings when there is such a result, and the
    all-clean statement exactly when there is none. *)
Theorem final_report_is_a_function_of_results env :
  let s' := snd (run_scan env init) in
  forall file content,
    In (file, content) (written s') ->
    content = report_of_results (now env) (results s').
Proof.
  assert (Hinit : tally_consistent init) by (split; reflexivity).
  destruct (run_scan_spec env init Hinit) as (o & s1 & Hrun & _ & Hinv & Hwr).
  rewrite Hrun. cbn [snd]. destruct Hinv as (Htot & Hrws).
  intros file content Hin.
  destruct Hwr as [Hw | (f & s_rep & Hw & Hres & Ht & Hr)];
    rewrite Hw in Hin; cbn in Hin; [contradiction|].
  destruct Hin as [Heq|[]]. injection Heq as _ <-.
  unfold final_report_content, report_of_results.
  rewrite Hres, Ht, Hr, Htot, Hrws, <- secrets_counted_iff_any. reflexivity.
Qed.

(** No more results than repositories, however the loop ends. *)
Lemma scan_all_results_bound env d urls :
  forall s,
    temp_dir s = Some d ->
    List.length (results (snd (scan_all env urls s)))
    <= List.length (results s) + List.length urls.
Proof.
  induction urls as [|url rest IH]; intros s Hd; [cbn; lia|].
  destruct (scan_all_step env d url rest s Hd)
    as [(s1 & Hstep & Hd1 & Hres) | (e & s1 & Hstep & _ & Hres)];
    rewrite Hstep.
  - specialize (IH s1 Hd1).
    destruct Hres as [Hres | (r & Hres & _)]; rewrite Hres in IH;
      [|rewrite length_app in IH]; cbn in *; lia.
  - cbn. rewrite Hres. lia.
Qed.

Lemma secrets_within_successes rs :
  Forall (fun r => success r = true \/ findings_count r = 0) rs ->
  count_with_secrets rs <= List.length (filter success rs).
Proof.
  unfold count_with_secrets.
  induction 1 as [|r rs [Hs | Hz] _ IH]; cbn [filter length]; [lia | |].
  - rewrite Hs. destruct (0 <? findings_count r); cbn [length]; lia.
  - rewrite Hz, Nat.ltb_irrefl. destruct (success r); cbn [length]; lia.
Qed.

(** X8. Every recorded result with findings has [success] true, and the
    numbers of the summary are ordered: repositories with secrets <=
    successfully scanned <= results recorded <= repositories
    configured. *)
Theorem report_numbers_are_ordered env :
  let s' := snd (run_scan env init) in
  Forall (fun r => 0 < findings_count r -> success r = true) (results s') /\
  repos_with_secrets s' <= List.length (filter success (results s')) /\
  List.length (filter success (results s')) <= List.length (results s') /\
  List.length (results s') <= List.length REPOSITORIES.
Proof.
  assert (Hinit : tally_consistent init) by (split; reflexivity).
  destruct (run_scan_spec env init Hinit) as (o & s' & Hrun & _ & (_ & Hrws) & _).
  destruct (run_scan_factors env) as (o' & s'' & Hrun' & Hfac).
  rewrite Hrun in Hrun'. injection Hrun' as <- <-.
  rewrite Hrun. cbn [snd]. rewrite Hrws.
  assert (Hshape : Forall (fun r => success r = true \/ findings_count r = 0)
                          (results s')).
  { destruct Hfac as [(Hnil & _) | (d & s1 & o1 & s2 & _ & Hd1 & Hr1 & _ & Hloop & Hres & _)].
    - rewrite Hnil. constructor.
    - rewrite Hres.
      replace s2 with (snd (scan_all env REPOSITORIES s1)) by now rewrite Hloop.
      apply (scan_all_results_invariant env d); [| exact Hd1 | rewrite Hr1; constructor].
      intros url r _ _ _ _ _ Hs. exact Hs. }
  split; [|split; [|split]].
  - apply (Forall_impl _ (P := fun r => success r = true \/ findings_count r = 0));
      [|exact Hshape].
    intros r [Hs | Hz] Hpos; [exact Hs | lia].
  - now apply secrets_within_successes.
  - apply filter_length_le.
  - destruct Hfac as [(Hnil & _) | (d & s1 & o1 & s2 & _ & Hd1 & Hr1 & _ & Hloop & Hres & _)].
    + rewrite Hnil. cbn. lia.
    + rewrite Hres.
      pose proof (scan_all_results_bound env d REPOSITORIES s1 Hd1) as Hb.
      rewrite Hloop, Hr1 in Hb. exact Hb.
Qed.

(** ** Reports whose entries are not all objects *)

Lemma print_findings_all_dicts items :
  forall s,
    forallb is_dict items = true ->
    exists extra, print_findings items s = (Return tt, with_console s extra).
Proof.
  induction items as [|finding rest IH]; intros s Hall.
  - exists []. cbn. now rewrite with_console_nil.
  - cbn [forallb] in Hall. apply andb_true_iff in Hall as (Hd & Hrest).
    destruct finding; try discriminate Hd.
    cbn [print_findings]. unfold py_get. run_steps.
    match goal with
    | |- context [print_findings rest ?s1] =>
        destruct (IH s1 Hrest) as (extra & Hx); rewrite Hx
    end.
    eexists (_ :: extra). unfold with_console. cbn [temp_dir results
      total_findings repos_with_secrets console calls written removed].
    rewrite <- app_assoc. reflexivity.
Qed.

Lemma print_findings_non_dict items :
  forall s,
    forallb is_dict items = false ->
    exists e extra,
      print_findings items s = (Raise e, with_console s extra) /\
      exn_class e = AttributeError.
Proof.
  induction items as [|finding rest IH]; intros s Hsome; [discriminate|].
  cbn [forallb] in Hsome.
  destruct finding; cbn [is_dict andb] in Hsome;
    try (eexists; exists []; rewrite with_console_nil;
         cbn [print_findings py_get]; unfold bind, lift; split; reflexivity).
  cbn [print_findings]. unfold py_get. run_steps.
  match goal with
  | |- context [print_findings rest ?s1] =>
      destruct (IH s1 Hsome) as (e & extra & Hx & Hc); rewrite Hx
  end.
  exists e. eexists (_ :: extra). split; [|exact Hc].
  unfold with_console. cbn [temp_dir results
    total_findings repos_with_secrets console calls written removed].
  rewrite <- app_assoc. reflexivity.
Qed.

(** X9. Only the first five entries of a report are looked at.  When
    they are objects, the scan succeeds with all entries as findings,
    whatever the later entries are, and both counters are updated: one
    more repository with secrets, [len(findings)] more findings. *)
Theorem only_first_five_entries_are_inspected env d path url s size l :
  temp_dir s = Some d ->
  scan_completes env d path ->
  report_on_disk env (report_path d path) = Present size (Return (PList l)) ->
  0 < size ->
  l <> [] ->
  forallb is_dict (firstn 5 l) = true ->
  exists s',
    scan_repository env path url s
    = (Return (mk_result (basename path) url path (report_path d path)
                 (PList l) (List.length l) true None), s') /\
    total_findings s' = total_findings s + List.length l /\
    repos_with_secrets s' = repos_with_secrets s + 1.
Proof.
  intros Hd (cp & Hcp) Hrep Hsize Hne Hfive.
  apply Nat.ltb_lt in Hsize.
  destruct s as [td rs tf rws co ca wr rm]. cbn in Hd. subst td.
  unfold scan_argv, report_path in *.
  unfold scan_repository, read_report. run_monad.
  rewrite Hcp, Hrep, Hsize. cbn [py_len].
  destruct (List.length l) as [|n] eqn:Hn.
  { apply length_zero_iff_nil in Hn. contradiction. }
  split_on_count n;
    match goal with
    | |- context [print_findings ?items ?s1] =>
        destruct (print_findings_all_dicts items s1 Hfive) as (extra & Hx);
        rewrite Hx
    end; unfold with_console; run_monad;
    (eexists; split; [reflexivity|]; cbn; split; reflexivity).
Qed.

Lemma only_first_five_entries_are_inspected_witness :
  let l := [ a_finding "r1"; a_finding "r2"; a_finding "r3"; a_finding "r4";
             a_finding "r5"; PInt 7; PStr "not a finding" ] in
  let env := with_report (fun _ => Present 700 (Return (PList l))) quiet in
  let path := "/tmp/w/AlgoHL" in
  let url := "https://github.com/AlwaysUbaid/AlgoHL" in
  temp_dir ready = Some "/tmp/w" /\
  scan_completes env "/tmp/w" path /\
  report_on_disk env (report_path "/tmp/w" path) = Present 700 (Return (PList l)) /\
  0 < 700 /\
  l <> [] /\
  forallb is_dict (firstn 5 l) = true /\
  exists s',
    scan_repository env path url ready
    = (Return (mk_result (basename path) url path (report_path "/tmp/w" path)
                 (PList l) (List.length l) true None), s') /\
    total_findings s' = total_findings ready + List.length l /\
    repos_with_secrets s' = repos_with_secrets ready + 1.
Proof.
  intros l env path url.
  assert (Hrun : scan_completes env "/tmp/w" path) by (eexists; reflexivity).
  assert (Hsize : 0 < 700) by lia.
  assert (Hne : l <> []) by discriminate.
  split; [reflexivity|]. split; [exact Hrun|]. split; [reflexivity|].
  split; [exact Hsize|]. split; [exact Hne|]. split; [reflexivity|].
  exact (only_first_five_entries_are_inspected env "/tmp/w" path url ready 700 l
           eq_refl Hrun eq_refl Hsize Hne eq_refl).
Defined.

(** X10. When one of the first five entries of a report is not an
    object, the scan is recorded as failed with no findings at all and
    the counters stay as they were, although the report holds entries. *)
Theorem non_object_entry_fails_the_scan env d path url s size l :
  temp_dir s = Some d ->
  scan_completes env d path ->
  report_on_disk env (report_path d path) = Present size (Return (PList l)) ->
  0 < size ->
  forallb is_dict (firstn 5 l) = false ->
  exists msg s',
    scan_repository env path url s
    = (Return (failed_result (basename path) url path (report_path d path) msg), s') /\
    total_findings s' = total_findings s /\
    repos_with_secrets s' = repos_with_secrets s.
Proof.
  intros Hd (cp & Hcp) Hrep Hsize Hfive.
  apply Nat.ltb_lt in Hsize.
  destruct s as [td rs tf rws co ca wr rm]. cbn in Hd. subst td.
  unfold scan_argv, report_path in *.
  unfold scan_repository, read_report. run_monad.
  rewrite Hcp, Hrep, Hsize. cbn [py_len].
  destruct (List.length l) as [|n] eqn:Hn.
  { apply length_zero_iff_nil in Hn. subst l. discriminate Hfive. }
  split_on_count n;
    match goal with
    | |- context [print_findings ?items ?s1] =>
        destruct (print_findings_non_dict items s1 Hfive)
          as (e & extra & Hx & Hc);
        rewrite Hx
    end; unfold with_console; run_monad; rewrite Hc; run_monad;
    (do 2 eexists; split; [reflexivity|]; cbn; split; reflexivity).
Qed.

Lemma non_object_entry_fails_the_scan_witness :
  let l := [ a_finding "private-key"; PInt 7 ] in
  let env := with_report (fun _ => Present 20 (Return (PList l))) quiet in
  let path := "/tmp/w/AlgoHL" in
  let url := "https://github.com/AlwaysUbaid/AlgoHL" in
  temp_dir ready = Some "/tmp/w" /\
  scan_completes env "/tmp/w" path /\
  report_on_disk env (report_path "/tmp/w" path) = Present 20 (Return (PList l)) /\
  0 < 20 /\
  forallb is_dict (firstn 5 l) = false /\
  exists msg s',
    scan_repository env path url ready
    = (Return (failed_result (basename path) url path (report_path "/tmp/w" path) msg),
       s') /\
    total_findings s' = total_findings ready /\
    repos_with_secrets s' = repos_with_secrets ready.
Proof.
  intros l env path url.
  assert (Hrun : scan_completes env "/tmp/w" path) by (eexists; reflexivity).
  assert (Hsize : 0 < 20) by lia.
  split; [reflexivity|]. split; [exact Hrun|]. split; [reflexivity|].
  split; [exact Hsize|]. split; [reflexivity|].
  exact (non_object_entry_fails_the_scan env "/tmp/w" path url ready 20 l
           eq_refl Hrun eq_refl Hsize eq_refl).
Defined.

(** ** Interrupts and error messages *)

(** X11. An interrupt during the clone or the scan of a repository ends
    the loop there: the interrupt propagates, the repository in progress
    leaves no result and no count, and no command is run for the
    remaining URLs. *)
Theorem interrupt_abandons_the_run env d url rest s :
  temp_dir s = Some d ->
  interrupt_during env d url ->
  exists e s',
    scan_all env (url :: rest) s = (Raise e, s') /\
    exn_class e = KeyboardInterrupt /\
    results s' = results s /\
    total_findings s' = total_findings s /\
    repos_with_secrets s' = repos_with_secrets s /\
    calls s'
    = (calls s ++
       (clone_argv url (clone_path d url), 300)
       :: (if cloned env d url
           then [(scan_argv (report_path d (clone_path d url)) (clone_path d url), 600)]
           else []))%list.
Proof.
  intros Hd Hint.
  destruct s as [td rs tf rws co ca wr rm]. cbn in Hd. subst td.
  unfold interrupt_during, cloned, clone_argv, clone_path, scan_argv, report_path in *.
  cbn [scan_all]. unfold clone_repository. run_monad.
  destruct Hint as [(e & He & Hc) | (Hcl & e & He & Hc)].
  - rewrite He, Hc. run_monad. exists e. eexists.
    split; [reflexivity|]. repeat split. exact Hc.
  - destruct (subprocess_run env _ 300) as [cp|e0]; [|discriminate].
    rewrite Hcl. run_monad. cbn [negb]. unfold scan_repository. run_monad.
    rewrite He, Hc. run_monad. exists e. eexists.
    split; [reflexivity|]. split; [exact Hc|]. cbn.
    rewrite <- !app_assoc. repeat split.
Qed.

Lemma interrupt_abandons_the_run_witness :
  let env :=
    with_run (tool_answers "gitleaks" (Raise (mk_exn KeyboardInterrupt ""))) quiet in
  let url := "https://github.com/AlwaysUbaid/AlgoHL" in
  let rest := ["https://github.com/AlwaysUbaid/avail-dune-analytics"] in
  temp_dir ready = Some "/tmp/w" /\
  interrupt_during env "/tmp/w" url /\
  exists e s',
    scan_all env (url :: rest) ready = (Raise e, s') /\
    exn_class e = KeyboardInterrupt /\
    results s' = results ready /\
    total_findings s' = total_findings ready /\
    repos_with_secrets s' = repos_with_secrets ready /\
    calls s'
    = (calls ready ++
       (clone_argv url (clone_path "/tmp/w" url), 300)
       :: (if cloned env "/tmp/w" url
           then [(scan_argv (report_path "/tmp/w" (clone_path "/tmp/w" url))
                            (clone_path "/tmp/w" url), 600)]
           else []))%list.
Proof.
  intros env url rest.
  assert (Hint : interrupt_during env "/tmp/w" url).
  { right. split; [reflexivity|]. eexists. split; reflexivity. }
  split; [reflexivity|]. split; [exact Hint|].
  exact (interrupt_abandons_the_run env "/tmp/w" url rest ready eq_refl Hint).
Defined.

(** X12. The error message of a failed scan names the repository: a
    timeout gives [Timeout scanning <name>], and any other exception
    [e] gives [Error scanning <name>: ] followed by [str(e)]; the same
    text is printed on the console. *)
Theorem scan_error_messages env d path url s e :
  temp_dir s = Some d ->
  subprocess_run env (scan_argv (report_path d path) path) 600 = Raise e ->
  is_Exception e = true ->
  let msg :=
    match exn_class e with
    | TimeoutExpired => "Timeout scanning " ++ basename path
    | _ => "Error scanning " ++ basename path ++ ": " ++ exn_str e
    end in
  scan_repository env path url s
  = (Return (failed_result (basename path) url path (report_path d path) msg),
     with_console
       (mk_state (temp_dir s) (results s) (total_findings s) (repos_with_secrets s)
                 (console s)
                 (calls s ++ [(scan_argv (report_path d path) path, 600)])
                 (written s) (removed s))
       [Scanning (basename path); ScanError msg]).
Proof.
  intros Hd He Hex msg. subst msg.
  destruct s as [td rs tf rws co ca wr rm]. cbn in Hd. subst td.
  unfold scan_argv, report_path in *.
  unfold scan_repository, with_console. run_monad. rewrite He.
  unfold is_Exception in Hex.
  destruct (exn_class e); try discriminate Hex;
    cbn; rewrite <- app_assoc; reflexivity.
Qed.

Lemma scan_error_messages_witness :
  let e := mk_exn OtherException "[Errno 13] Permission denied: 'gitleaks'" in
  let env := with_run (tool_answers "gitleaks" (Raise e)) quiet in
  let path := "/tmp/w/AlgoHL" in
  let url := "https://github.com/AlwaysUbaid/AlgoHL" in
  temp_dir ready = Some "/tmp/w" /\
  subprocess_run env (scan_argv (report_path "/tmp/w" path) path) 600 = Raise e /\
  is_Exception e = true /\
  let msg :=
    match exn_class e with
    | TimeoutExpired => "Timeout scanning " ++ basename path
    | _ => "Error scanning " ++ basename path ++ ": " ++ exn_str e
    end in
  scan_repository env path url ready
  = (Return (failed_result (basename path) url path (report_path "/tmp/w" path) msg),
     with_console
       (mk_state (temp_dir ready) (results ready) (total_findings ready)
                 (repos_with_secrets ready) (console ready)
                 (calls ready ++ [(scan_argv (report_path "/tmp/w" path) path, 600)])
                 (written ready) (removed ready))
       [Scanning (basename path); ScanError msg]).
Proof.
  intros e env path url.
  split; [reflexivity|]. split; [reflexivity|]. split; [reflexivity|].
  exact (scan_error_messages env "/tmp/w" path url ready e eq_refl eq_refl eq_refl).
Defined.

(** ** A successful clone *)

(** X13. A clone that exits with code 0 returns [True] and the path of
    the clone, which is the last segment of the URL inside the
    workspace; it prints nothing and has run the one clone command. *)
Theorem clone_success_returns_the_clone_path env d url s cp :
  temp_dir s = Some d ->
  subprocess_run env (clone_argv url (clone_path d url)) 300 = Return cp ->
  returncode cp = 0%Z ->
  clone_repository env url s
  = (Return (true, path_join d (basename url)),
     mk_state (temp_dir s) (results s) (total_findings s) (repos_with_secrets s)
              (console s)
              (calls s ++ [(clone_argv url (clone_path d url), 300)])
              (written s) (removed s)) /\
  basename (path_join d (basename url)) = basename url.
Proof.
  intros Hd Hcp Hrc. split; [|apply basename_path_join, basename_slash_free].
  destruct s as [td rs tf rws co ca wr rm]. cbn in Hd. subst td.
  unfold clone_argv, clone_path in *.
  unfold clone_repository. run_monad. rewrite Hcp, Hrc. reflexivity.
Qed.

Lemma clone_success_returns_the_clone_path_witness :
  let url := "https://github.com/AlwaysUbaid/AlgoHL" in
  let cp := mk_completed 0 "" "" in
  temp_dir ready = Some "/tmp/w" /\
  subprocess_run quiet (clone_argv url (clone_path "/tmp/w" url)) 300 = Return cp /\
  returncode cp = 0%Z /\
  clone_repository quiet url ready
  = (Return (true, path_join "/tmp/w" (basename url)),
     mk_state (temp_dir ready) (results ready) (total_findings ready)
              (repos_with_secrets ready) (console ready)
              (calls ready ++ [(clone_argv url (clone_path "/tmp/w" url), 300)])
              (written ready) (removed ready)) /\
  basename (path_join "/tmp/w" (basename url)) = basename url.
Proof.
  intros url cp.
  split; [reflexivity|]. split; [reflexivity|]. split; [reflexivity|].
  exact (clone_success_returns_the_clone_path quiet "/tmp/w" url ready cp
           eq_refl eq_refl eq_refl).
Defined.

(** ** The console summary *)

Lemma print_summary_lines s :
  tally_consistent s ->
  print_summary s = (Return tt, with_console s (summary_of_results (results s))).
Proof.
  intros (Htot & Hrws).
  unfold print_summary. unfold bind at 1, get at 1.
  unfold summary_of_results.
  rewrite <- secrets_counted_iff_any, <- Hrws, <- Htot.
  destruct (repos_with_secrets s) as [|n]; cbn [Nat.eqb Nat.ltb Nat.leb];
    through_prints; reflexivity.
Qed.

(** X14. A run that returns [True] ends its console output with the
    summary of the recorded results: the warning with the recommended
    actions exactly when some result has findings, the congratulation
    exactly when none has. *)
Theorem completed_run_ends_with_summary env s' :
  run_scan env init = (Return true, s') ->
  exists before,
    console s' = (before ++ summary_of_results (results s'))%list.
Proof.
  unfold run_scan. through_prints. unfold bind at 1.
  match goal with
  | |- context [check_dependencies env ?s0] =>
      destruct (check_dependencies_frame env s0) as (extra & Hdeps)
  end.
  rewrite Hdeps, with_console_app.
  destruct (which env "gitleaks" && which env "git")%bool; cbn [negb];
    [|discriminate].
  unfold setup_temp_directory.
  unfold bind at 1. unfold bind at 1. unfold lift at 1.
  destruct (mkdtemp env "gitleaks_scan_") as [d|e]; [|discriminate].
  unfold bind at 1, set_temp_dir at 1. through_prints.
  match goal with
  | |- context [bind (scan_all env REPOSITORIES) _ ?s1] =>
      destruct (scan_all_tally env d REPOSITORIES s1 eq_refl)
        as (o1 & s2 & Hloop & Hd2 & Hinv2 & _);
        [split; reflexivity|];
      unfold bind at 1; rewrite Hloop
  end.
  destruct o1 as [[]|e]; [|discriminate].
  unfold bind at 1.
  destruct (generate_final_report_spec env s2 d Hd2)
    as (o3 & s3 & Hrep & _ & Hres3 & Htot3 & Hrws3 & _).
  rewrite Hrep. destruct o3 as [file|e]; [|discriminate].
  assert (Hinv3 : tally_consistent s3)
    by (apply (tally_consistent_frame s2); assumption).
  unfold bind at 1. rewrite (print_summary_lines s3 Hinv3).
  unfold ret. intros [= <-]. exists (console s3). reflexivity.
Qed.

Lemma completed_run_ends_with_summary_witness :
  let env :=
    with_report (fun _ => Present 120 (Return (PList [a_finding "aws-access-token"])))
                quiet in
  let s' := snd (run_scan env init) in
  run_scan env init = (Return true, s') /\
  exists before,
    console s' = (before ++ summary_of_results (results s'))%list.
Proof.
  intros env s'.
  assert (Hrun : run_scan env init = (Return true, s'))
    by (vm_compute; reflexivity).
  split; [exact Hrun|].
  exact (completed_run_ends_with_summary env s' Hrun).
Defined.

Lemma final_report_is_a_function_of_results_witness :
  let env :=
    with_report (fun _ => Present 120 (Return (PList [a_finding "aws-access-token"])))
                quiet in
  let s' := snd (run_scan env init) in
  let file := "/tmp/gitleaks_scan_x/final_report.txt" in
  let content := report_of_results (now env) (results s') in
  In (file, content) (written s') /\
  content = report_of_results (now env) (results s').
Proof.
  intros env s' file content.
  assert (Hin : In (file, content) (written s')).
  { vm_compute. left. reflexivity. }
  split; [exact Hin|].
  exact (final_report_is_a_function_of_results env file content Hin).
Defined.
